(** * Doctor-appointment multi-agent: supervisor routing and the slot store

    A shallow embedding of [src/agent.py] (the supervisor node and the time
    extraction of the booking node) and of [src/toolkit/toolkits.py] (the
    five tools over [doctor_availability.csv]), with the properties the
    specification states about them.

    Conventions of the embedding.
    - Python [str] values are [string]s of 8-bit characters.  Case mapping
      and character classes are Python's on the ASCII range; characters
      above it are left alone by [lower]/[upper]/[title] and are neither
      digits, letters nor white space.
    - Python [int] values are [Z]; list lengths and counters are [nat].
    - Exceptions are values of [PyExc]; the text Python prints for one
      ([str(e)]) belongs to the libraries and is a parameter.
    - [print] calls are not modelled. *)

From Stdlib Require Import String Ascii List ZArith Lia Bool Arith.
From Stdlib Require Import Numbers.DecimalString.
Import ListNotations.

Local Open Scope list_scope.
Local Open Scope string_scope.

(* ===================================================================== *)
(** ** Python strings and integers                                        *)
(* ===================================================================== *)

Module Py.

(** Exceptions raised by the modelled code and by the libraries under it. *)
Inductive PyExc : Type :=
| IndexError                       (* list index out of range *)
| AttributeError                   (* attribute of None *)
| ValueError (culprit : string)    (* int() literal, unpacking, template *)
| TypeError (culprit : string)     (* str.join on a non-string item *)
| ValidationError (value : string) (* pydantic model or tool argument *)
| LLMError (detail : string).      (* anything the model client raises *)

Definition in_range (lo hi : nat) (c : ascii) : bool :=
  let n := nat_of_ascii c in (lo <=? n)%nat && (n <=? hi)%nat.

Definition is_digit (c : ascii) : bool := in_range 48 57 c.
Definition is_upper (c : ascii) : bool := in_range 65 90 c.
Definition is_lower (c : ascii) : bool := in_range 97 122 c.
Definition is_alpha (c : ascii) : bool := is_upper c || is_lower c.

(** [str.isspace] on one character: tab, LF, VT, FF, CR, FS..US, space. *)
Definition is_space (c : ascii) : bool :=
  in_range 9 13 c || in_range 28 32 c.

Definition lower_char (c : ascii) : ascii :=
  if is_upper c then ascii_of_nat (nat_of_ascii c + 32) else c.
Definition upper_char (c : ascii) : ascii :=
  if is_lower c then ascii_of_nat (nat_of_ascii c - 32) else c.

Fixpoint map_chars (f : ascii -> ascii) (s : string) : string :=
  match s with
  | EmptyString => EmptyString
  | String c t => String (f c) (map_chars f t)
  end.

(** [s.lower()], [s.upper()] *)
Definition lower (s : string) : string := map_chars lower_char s.
Definition upper (s : string) : string := map_chars upper_char s.

(** [s.title()]: a letter is upper-cased after a non-letter (or at the
    start) and lower-cased after a letter. *)
Fixpoint title_from (after_letter : bool) (s : string) : string :=
  match s with
  | EmptyString => EmptyString
  | String c t =>
      String (if is_alpha c
              then (if after_letter then lower_char c else upper_char c)
              else c)
             (title_from (is_alpha c) t)
  end.
Definition title (s : string) : string := title_from false s.

(** [c in s] for one character. *)
Definition has_char (c : ascii) (s : string) : bool :=
  existsb (Ascii.eqb c) (list_ascii_of_string s).

(** [sub in s] *)
Fixpoint contains (sub s : string) : bool :=
  prefix sub s ||
  match s with
  | EmptyString => false
  | String _ t => contains sub t
  end.

Fixpoint lstrip (s : string) : string :=
  match s with
  | String c t => if is_space c then lstrip t else s
  | EmptyString => EmptyString
  end.

Fixpoint rstrip (s : string) : string :=
  match s with
  | EmptyString => EmptyString
  | String c t =>
      match rstrip t with
      | EmptyString => if is_space c then EmptyString else String c EmptyString
      | t' => String c t'
      end
  end.

(** [s.strip()] *)
Definition strip (s : string) : string := rstrip (lstrip s).

(** [s.split(sep)] for a one-character separator: every occurrence cuts,
    empty pieces are kept, the result is never empty. *)
Fixpoint split (sep : ascii) (s : string) : list string :=
  match s with
  | EmptyString => [EmptyString]
  | String c t =>
      if Ascii.eqb c sep then EmptyString :: split sep t
      else match split sep t with
           | piece :: rest => String c piece :: rest
           | [] => [String c EmptyString]
           end
  end.

(** [s.replace(a, b)] for one-character [a] and [b]. *)
Definition replace (a b : ascii) (s : string) : string :=
  map_chars (fun c => if Ascii.eqb c a then b else c) s.

(** [sep.join(items)] on strings. *)
Fixpoint join (sep : string) (items : list string) : string :=
  match items with
  | [] => EmptyString
  | [x] => x
  | x :: rest => x ++ sep ++ join sep rest
  end.

(** [str(n)] for an [int]. *)
Definition str (n : Z) : string := NilZero.string_of_int (Z.to_int n).

(** [f"{n:02d}"] *)
Definition fmt_02d (n : Z) : string :=
  let s := str n in
  if (String.length s <? 2)%nat then "0" ++ s else s.

Definition digit_value (c : ascii) : Z := Z.of_nat (nat_of_ascii c - 48).

(** Digits with single underscores between them, as [int] accepts. *)
Fixpoint digits_value (acc : Z) (after_digit : bool) (s : string) : option Z :=
  match s with
  | EmptyString => if after_digit then Some acc else None
  | String c t =>
      if is_digit c then digits_value (10 * acc + digit_value c) true t
      else if Ascii.eqb c "_" then
             (if after_digit
              then match t with
                   | String d _ => if is_digit d then digits_value acc false t else None
                   | EmptyString => None
                   end
              else None)
      else None
  end.

(** [int(s)] in base 10: white space stripped, an optional sign, digits.
    [None] stands for [ValueError]. *)
Definition int (s : string) : option Z :=
  match strip s with
  | String "-" t => option_map Z.opp (digits_value 0 false t)
  | String "+" t => digits_value 0 false t
  | t => digits_value 0 false t
  end.

End Py.

Import Py.

(* ===================================================================== *)
(** ** External collaborators                                             *)
(* ===================================================================== *)

(** What the modelled files import from outside [src/]: the pydantic models
    of [data_models.models] (each checks the shape of one value and keeps
    it), the prompt text of [prompt_library.prompt], and the text the
    libraries give their exceptions. *)
Class Externals : Type := {
  DateModel : string -> bool;                 (* DD-MM-YYYY *)
  DateTimeModel : string -> bool;             (* DD-MM-YYYY HH:MM *)
  IdentificationNumberModel : Z -> bool;      (* 7 or 8 digits *)
  system_prompt : string;
  str_exc : PyExc -> string                   (* str(e) *)
}.

Definition LF : string := String (ascii_of_nat 10) EmptyString.
Definition DQ : string := String (ascii_of_nat 34) EmptyString.

(* ===================================================================== *)
(** ** [src/agent.py]                                                     *)
(* ===================================================================== *)

Module Agent.

(** [Literal["information_node", "booking_node", "FINISH"]] *)
Inductive Route : Type := information_node | booking_node | FINISH.

(** [class Router(BaseModel)] *)
Record Router : Type := { next : Route; reasoning : string }.

(** A langchain message: [AIMessage] or not, its optional [name], its
    [content].  Every message object has both attributes, so the
    [hasattr] tests of the source are always true. *)
Record Message : Type := {
  is_ai : bool;
  name : option string;
  content : string
}.

(** [class AgentState(TypedDict)] *)
Record AgentState : Type := {
  messages : list Message;
  id_number : Z;
  state_next : string;
  query : string;
  current_reasoning : string
}.

(** Where a [Command] sends the graph: a node, or [END]. *)
Inductive Goto : Type := goto_information_node | goto_booking_node | END.

(** [Command(goto=..., update={'next': ..., 'current_reasoning': ...})] *)
Record Command : Type := {
  goto : Goto;
  update_next : Route;
  update_current_reasoning : string
}.

(** One entry of the prompt handed to the model. *)
Record ChatMessage : Type := { role : string; chat_content : string }.

(** What [llm.with_structured_output(Router).invoke(messages)] gives
    back: a [Router], no object at all, or an exception. *)
Inductive Response : Type :=
| Parsed (r : Router)
| NoObject
| Failed (e : PyExc).

Definition failed (r : Response) : bool :=
  match r with Parsed _ => false | _ => true end.

(** Programs that may raise and may call the decision model. *)
Inductive Prog (A : Type) : Type :=
| Ret (a : A)
| Raise (e : PyExc)
| Invoke (prompt : list ChatMessage) (k : Response -> Prog A).
Arguments Ret {A} a.
Arguments Raise {A} e.
Arguments Invoke {A} prompt k.

Fixpoint bind {A B : Type} (p : Prog A) (f : A -> Prog B) : Prog B :=
  match p with
  | Ret a => f a
  | Raise e => Raise e
  | Invoke m k => Invoke m (fun r => bind (k r) f)
  end.

Notation "x <- p ;; q" := (bind p (fun x => q))
  (at level 61, p at next level, right associativity).

(** The result of running a program against a decision model. *)
Inductive Outcome (A : Type) : Type :=
| Returned (a : A)
| Raised (e : PyExc).
Arguments Returned {A} a.
Arguments Raised {A} e.

Fixpoint run {A : Type} (llm : list ChatMessage -> Response) (p : Prog A)
  : Outcome A :=
  match p with
  | Ret a => Returned a
  | Raise e => Raised e
  | Invoke m k => run llm (k (llm m))
  end.

(** The prompt of the first call to the model, if the program makes one. *)
Definition asks {A : Type} (p : Prog A) : option (list ChatMessage) :=
  match p with
  | Invoke m _ => Some m
  | _ => None
  end.

(** [xs[-1]] *)
Definition getitem_last {A : Type} (xs : list A) : Prog A :=
  match rev xs with
  | x :: _ => Ret x
  | [] => Raise IndexError
  end.

(** [hasattr(m, 'name') and m.name == tag] *)
Definition has_name (tag : string) (m : Message) : bool :=
  match name m with
  | Some n => String.eqb n tag
  | None => false
  end.

(** [len([m for m in state['messages'] if ... m.name == tag])] *)
Definition calls (tag : string) (state : AgentState) : nat :=
  List.length (filter (has_name tag) (messages state)).

(** [try: response = ....invoke(messages); goto = response.next; ...
     except Exception: handler] *)
Definition try_invoke (prompt : list ChatMessage)
    (handler : Prog (Route * string)) : Prog (Route * string) :=
  Invoke prompt (fun response =>
    match response with
    | Parsed r => Ret (next r, reasoning r)
    | NoObject => handler
    | Failed _ => handler
    end).

(** The body of the [except] branch of [supervisor_node] (lines 84-131). *)
Definition fallback (state : AgentState) (info_calls booking_calls : nat)
  : Prog (Route * string) :=
  last_msg <- getitem_last (messages state) ;;
  let last_content := lower (content last_msg) in
  let first_msg :=
    match messages state with
    | m :: _ => lower (content m)
    | [] => EmptyString
    end in
  let is_check_and_book :=
    contains "check" first_msg && contains "book" first_msg in
  if has_name "information_node" last_msg then
    if (contains "available" last_content || contains "slot" last_content)
       && (negb (contains "no available" last_content)
           && negb (contains "not available" last_content))
    then Ret (booking_node, "Fallback: availability confirmed, routing to booking")
    else if contains "no available" last_content
            || contains "not available" last_content
    then Ret (FINISH, "Fallback: no availability found")
    else if is_check_and_book && (booking_calls =? 0)%nat
    then Ret (booking_node, "Fallback: proceeding to booking as requested")
    else Ret (FINISH, "Fallback: information provided")
  else if has_name "booking_node" last_msg then
    Ret (FINISH, "Fallback: booking complete")
  else if (info_calls =? 0)%nat && (booking_calls =? 0)%nat then
    if contains "check" first_msg || contains "available" first_msg
    then Ret (information_node, "Fallback: checking availability first")
    else if contains "book" first_msg || contains "appointment" first_msg
    then Ret (booking_node, "Fallback: direct booking request")
    else Ret (FINISH, "Fallback: unclear request")
  else Ret (FINISH, "Fallback: ending conversation").

(** [Command(goto=goto, update={'next': goto if goto != END else 'FINISH',
    'current_reasoning': reasoning})] after [FINISH] became [END]. *)
Definition command (decision : Route * string) : Command :=
  let '(r, why) := decision in
  {| goto := match r with
             | information_node => goto_information_node
             | booking_node => goto_booking_node
             | FINISH => END
             end;
     update_next := r;
     update_current_reasoning := why |}.

Section Supervisor.
Context {E : Externals}.

(** The f-string [system_message] (lines 49-65). *)
Definition system_message (state : AgentState)
    (info_calls booking_calls : nat) (last_msg : Message) : string :=
  system_prompt ++ LF ++ LF ++
  "    IMPORTANT ROUTING RULES:" ++ LF ++
  "    1. If user asks to " ++ DQ ++ "check availability" ++ DQ ++
    ", route to information_node" ++ LF ++
  "    2. If user asks to " ++ DQ ++ "check AND book" ++ DQ ++
    ", FIRST route to information_node to check availability" ++ LF ++
  "    3. After information_node confirms availability, route to booking_node to complete the booking" ++ LF ++
  "    4. If booking was completed (success or failure), route to FINISH" ++ LF ++
  "    5. If no progress after 3 attempts, route to FINISH" ++ LF ++ LF ++
  "    Current state:" ++ LF ++
  "    - User ID: " ++ str (id_number state) ++ LF ++
  "    - Information checks done: " ++ str (Z.of_nat info_calls) ++ LF ++
  "    - Booking attempts done: " ++ str (Z.of_nat booking_calls) ++ LF ++
  "    - Last message was from: " ++
    match name last_msg with Some n => n | None => "None" end ++ LF ++ LF ++
  "    Respond with JSON: {" ++ DQ ++ "next" ++ DQ ++ ": " ++
    DQ ++ "information_node" ++ DQ ++ "|" ++ DQ ++ "booking_node" ++ DQ ++
    "|" ++ DQ ++ "FINISH" ++ DQ ++ ", " ++ DQ ++ "reasoning" ++ DQ ++
    ": " ++ DQ ++ "explanation" ++ DQ ++ "}" ++ LF ++
  "    ".

(** The list [messages] sent to the model (lines 67-72). *)
Definition prompt_messages (sys : string) (state : AgentState)
  : list ChatMessage :=
  {| role := "system"; chat_content := sys |} ::
  map (fun msg => {| role := if is_ai msg then "assistant" else "user";
                     chat_content := content msg |})
      (messages state).

(** [DoctorAppointmentAgent.supervisor_node] *)
Definition supervisor_node (state : AgentState) : Prog Command :=
  let info_calls := calls "information_node" state in
  let booking_calls := calls "booking_node" state in
  if (6 <=? info_calls + booking_calls)%nat then
    Ret {| goto := END;
           update_next := FINISH;
           update_current_reasoning := "Maximum iterations reached" |}
  else
    last_msg <- getitem_last (messages state) ;;
    let sys := system_message state info_calls booking_calls last_msg in
    decision <- try_invoke (prompt_messages sys state)
                           (fallback state info_calls booking_calls) ;;
    Ret (command decision).

(** The supervisor reaches its call to the decision model, and the
    model gives no well-formed decision for the prompt it is sent. *)
Definition primary_decision_fails
    (llm : list ChatMessage -> Response) (state : AgentState) : Prop :=
  exists prompt,
    asks (supervisor_node state) = Some prompt /\
    failed (llm prompt) = true.

End Supervisor.

(** *** Time extraction of [booking_node] (lines 232-244) *)

(** [(AM|PM)] under [re.IGNORECASE], at the start of [s]: the two
    characters matched. *)
Definition match_period (s : string) : option string :=
  match s with
  | String a (String m _) =>
      if (Ascii.eqb (upper_char a) "A" || Ascii.eqb (upper_char a) "P")
         && Ascii.eqb (upper_char m) "M"
      then Some (String a (String m EmptyString))
      else None
  | _ => None
  end.

(** [:(\d{2})\s*(AM|PM)] at the start of [s]: groups 2 and 3. *)
Definition match_minutes (s : string) : option (string * string) :=
  match s with
  | String ":" (String m1 (String m2 rest)) =>
      if is_digit m1 && is_digit m2 then
        match match_period (lstrip rest) with
        | Some p => Some (String m1 (String m2 EmptyString), p)
        | None => None
        end
      else None
  | _ => None
  end.

(** [(\d{1,2}):(\d{2})\s*(AM|PM)] at the start of [s]: two digits are
    tried first, then one. *)
Definition match_time (s : string) : option (string * string * string) :=
  match s with
  | String h1 t =>
      if is_digit h1 then
        let one :=
          match match_minutes t with
          | Some (m, p) => Some (String h1 EmptyString, m, p)
          | None => None
          end in
        match t with
        | String h2 t2 =>
            if is_digit h2 then
              match match_minutes t2 with
              | Some (m, p) => Some (String h1 (String h2 EmptyString), m, p)
              | None => one
              end
            else one
        | EmptyString => one
        end
      else None
  | EmptyString => None
  end.

(** [re.search(r'(\d{1,2}):(\d{2})\s*(AM|PM)', s, re.IGNORECASE)]: the
    leftmost position where the pattern matches. *)
Fixpoint search_time (s : string) : option (string * string * string) :=
  match match_time s with
  | Some g => Some g
  | None =>
      match s with
      | String _ t => search_time t
      | EmptyString => None
      end
  end.

(** [extracted_time] as [booking_node] computes it from
    [availability_info]. *)
Definition extracted_time (availability_info : string) : string :=
  match search_time availability_info with
  | Some (g1, minute, g3) =>
      let hour := match int g1 with Some h => h | None => 0%Z end in
      let period := upper g3 in
      let hour :=
        if String.eqb period "PM" && negb (hour =? 12)%Z then (hour + 12)%Z
        else if String.eqb period "AM" && (hour =? 12)%Z then 0%Z
        else hour in
      fmt_02d hour ++ ":" ++ minute
  | None => EmptyString
  end.

End Agent.


(* ===================================================================== *)
(** ** [src/toolkit/toolkits.py]                                          *)
(* ===================================================================== *)

Module Toolkit.

(** The [Literal] of doctor names that types the booking tools. *)
Inductive Doctor : Type :=
| kevin_anderson | robert_martinez | susan_davis | daniel_miller
| sarah_wilson | michael_green | lisa_brown | jane_smith
| emily_johnson | john_doe.

Definition doctor_str (d : Doctor) : string :=
  match d with
  | kevin_anderson => "kevin anderson"
  | robert_martinez => "robert martinez"
  | susan_davis => "susan davis"
  | daniel_miller => "daniel miller"
  | sarah_wilson => "sarah wilson"
  | michael_green => "michael green"
  | lisa_brown => "lisa brown"
  | jane_smith => "jane smith"
  | emily_johnson => "emily johnson"
  | john_doe => "john doe"
  end.

(** [valid_doctors] of [check_availability_by_doctor]. *)
Definition valid_doctors : list string :=
  ["kevin anderson"; "robert martinez"; "susan davis"; "daniel miller";
   "sarah wilson"; "michael green"; "lisa brown"; "jane smith";
   "emily johnson"; "john doe"].

(** The [Literal] of specializations. *)
Inductive Specialization : Type :=
| general_dentist | cosmetic_dentist | prosthodontist | pediatric_dentist
| emergency_dentist | oral_surgeon | orthodontist.

Definition specialization_str (s : Specialization) : string :=
  match s with
  | general_dentist => "general_dentist"
  | cosmetic_dentist => "cosmetic_dentist"
  | prosthodontist => "prosthodontist"
  | pediatric_dentist => "pediatric_dentist"
  | emergency_dentist => "emergency_dentist"
  | oral_surgeon => "oral_surgeon"
  | orthodontist => "orthodontist"
  end.

(** One row of [doctor_availability.csv].  [patient_to_attend] is a
    nullable number: [None] is the empty cell (NaN once read). *)
Record Slot : Type := {
  date_slot : string;
  specialization : string;
  doctor_name : string;
  is_available : bool;
  patient_to_attend : option Z
}.

(** The table as [pd.read_csv] returns it: the rows in file order. *)
Definition DataFrame : Type := list Slot.

(** The world the tools run in: the slot-store file ([None] when the file
    does not exist; both spellings of its path in the source name this one
    file) and, as a ghost record, the names of the tools entered so far. *)
Record World : Type := {
  csv : option DataFrame;
  entered : list string
}.

(** State passing over [World]. *)
Definition M (A : Type) : Type := World -> A * World.

Definition ret {A : Type} (a : A) : M A := fun w => (a, w).

Definition bind {A B : Type} (m : M A) (f : A -> M B) : M B :=
  fun w => let (a, w') := m w in f a w'.

Notation "x <- m ;; k" := (bind m (fun x => k))
  (at level 61, m at next level, right associativity).
Notation "m ;;; k" := (bind m (fun _ => k))
  (at level 61, right associativity).

(** [pd.read_csv(path)]; [None] is [FileNotFoundError]. *)
Definition read_csv : M (option DataFrame) := fun w => (csv w, w).

(** [df.to_csv(path, index=False)]: the file is rewritten whole. *)
Definition stored (df : DataFrame) (w : World) : World :=
  {| csv := Some df; entered := entered w |}.

Definition to_csv (df : DataFrame) : M unit := fun w => (tt, stored df w).

(** Entering the body of a tool. *)
Definition noted (tool : string) (w : World) : World :=
  {| csv := csv w; entered := (entered w ++ [tool])%list |}.

Definition enter (tool : string) : M unit := fun w => (tt, noted tool w).

(** [df['date_slot'].str.split(' ').str[0]] and [.str[1]] on one row; a
    missing second piece is NaN. *)
Definition date_only (r : Slot) : string :=
  match split " " (date_slot r) with
  | d :: _ => d
  | [] => EmptyString
  end.

Definition time_only (r : Slot) : option string :=
  nth_error (split " " (date_slot r)) 1.

(** [len(frame) == 0] *)
Definition is_empty {A : Type} (rows : list A) : bool :=
  (List.length rows =? 0)%nat.

(** [', '.join(items)] where an item may be NaN: the first one that is
    raises [TypeError]. *)
Fixpoint checked_items (i : nat) (items : list (option string))
  : PyExc + list string :=
  match items with
  | [] => inr []
  | Some s :: rest =>
      match checked_items (S i) rest with
      | inr l => inr (s :: l)
      | inl e => inl e
      end
  | None :: _ => inl (TypeError (str (Z.of_nat i)))
  end.

(** [convert_to_am_pm], the local function of
    [check_availability_by_specialization]. *)
Definition convert_to_am_pm (time_str : string) : PyExc + string :=
  match split ":" time_str with
  | [a; b] =>
      match int a, int b with
      | Some hours, Some minutes =>
          let period := if (hours <? 12)%Z then "AM" else "PM" in
          let hours := if (hours mod 12 =? 0)%Z then 12%Z else (hours mod 12)%Z in
          inr (str hours ++ ":" ++ fmt_02d minutes ++ " " ++ period)
      | None, _ => inl (ValueError a)
      | Some _, None => inl (ValueError b)
      end
  | [a] => inl (ValueError (match int a with Some _ => time_str | None => a end))
  | a :: b :: c :: _ =>
      inl (ValueError (match int a, int b, int c with
                       | None, _, _ => a
                       | Some _, None, _ => b
                       | Some _, Some _, None => c
                       | Some _, Some _, Some _ => time_str
                       end))
  | [] => inl (ValueError time_str)
  end.

(** [str(time)] of a cell of [time_only]. *)
Definition str_cell (t : option string) : string :=
  match t with Some s => s | None => "nan" end.

(** [[convert_to_am_pm(time) for time in times]] *)
Fixpoint convert_all (times : list (option string)) : PyExc + list string :=
  match times with
  | [] => inr []
  | t :: rest =>
      match convert_to_am_pm (str_cell t) with
      | inl e => inl e
      | inr s =>
          match convert_all rest with
          | inl e => inl e
          | inr l => inr (s :: l)
          end
      end
  end.

(** Sorted group keys of [groupby('doctor_name')]. *)
Fixpoint insert_sorted (k : string) (keys : list string) : list string :=
  match keys with
  | [] => [k]
  | k' :: rest =>
      if String.eqb k k' then keys
      else if String.ltb k k' then k :: keys
      else k' :: insert_sorted k rest
  end.

Definition group_keys (df : DataFrame) : list string :=
  fold_right (fun r keys => insert_sorted (doctor_name r) keys) [] df.

(** [filtered_df.groupby('doctor_name')['time_only'].apply(list)] *)
Definition groupby_doctor (df : DataFrame) : list (string * list (option string)) :=
  map (fun k => (k, map time_only
                        (filter (fun r => String.eqb (doctor_name r) k) df)))
      (group_keys df).

(** The loop that renders the groups (lines 115-118). *)
Fixpoint render_groups (rows : list (string * list (option string)))
  : PyExc + string :=
  match rows with
  | [] => inr EmptyString
  | (doctor, times) :: rest =>
      match convert_all times with
      | inl e => inl e
      | inr slots =>
          match render_groups rest with
          | inl e => inl e
          | inr tail =>
              inr ("Dr. " ++ title doctor ++ ":" ++ LF ++ join ", " slots
                   ++ LF ++ LF ++ tail)
          end
      end
  end.

Definition CHECK_MARK : string :=
  String (ascii_of_nat 226) (String (ascii_of_nat 156)
    (String (ascii_of_nat 147) EmptyString)).

(** The texts the booking tools return. *)
Definition file_not_found : string :=
  "Error: doctor_availability.csv file not found".

Definition no_slot_exists (doctor : Doctor) (date : string) : string :=
  "No appointment slot exists for Dr. " ++ title (doctor_str doctor) ++ " at "
  ++ date ++ ". Please check availability first.".

Definition already_booked (doctor : Doctor) (date : string) : string :=
  "The slot at " ++ date ++ " with Dr. " ++ title (doctor_str doctor)
  ++ " is already booked.".

Definition booked (doctor : Doctor) (date : string) (id : Z) : string :=
  CHECK_MARK ++ " Appointment successfully booked!" ++ LF ++
  "Doctor: Dr. " ++ title (doctor_str doctor) ++ LF ++
  "Date & Time: " ++ date ++ LF ++
  "Patient ID: " ++ str id.

Definition no_appointment_found (doctor : Doctor) (date : string) (id : Z)
  : string :=
  "No appointment found for patient ID " ++ str id ++ " with Dr. "
  ++ title (doctor_str doctor) ++ " on " ++ date.

Definition cancelled (doctor : Doctor) (date : string) (id : Z) : string :=
  CHECK_MARK ++ " Appointment successfully cancelled for patient ID " ++ str id
  ++ " with Dr. " ++ title (doctor_str doctor) ++ " on " ++ date.

Definition not_available_at (doctor : Doctor) (date : string) : string :=
  "Dr. " ++ title (doctor_str doctor) ++ " is not available at " ++ date
  ++ ". Please choose another time slot.".

Definition rescheduled (doctor : Doctor) (old_date new_date : string) : string :=
  CHECK_MARK ++ " Appointment successfully rescheduled from " ++ old_date
  ++ " to " ++ new_date ++ " with Dr. " ++ title (doctor_str doctor).

(** The row masks of the booking tools. *)
Definition slot_of (doctor : Doctor) (date : string) (r : Slot) : bool :=
  String.eqb (date_slot r) date && String.eqb (doctor_name r) (doctor_str doctor).

Definition free_slot_of (doctor : Doctor) (date : string) (r : Slot) : bool :=
  slot_of doctor date r && is_available r.

Definition patient_is (id : Z) (r : Slot) : bool :=
  match patient_to_attend r with
  | Some p => (p =? id)%Z
  | None => false
  end.

Definition booking_of (doctor : Doctor) (date : string) (id : Z) (r : Slot)
  : bool :=
  String.eqb (date_slot r) date && patient_is id r
  && String.eqb (doctor_name r) (doctor_str doctor).

(** [df.loc[mask, ['is_available','patient_to_attend']] = [flag, patient]] *)
Definition assign (mask : Slot -> bool) (flag : bool) (patient : option Z)
    (df : DataFrame) : DataFrame :=
  map (fun r => if mask r
                then {| date_slot := date_slot r;
                        specialization := specialization r;
                        doctor_name := doctor_name r;
                        is_available := flag;
                        patient_to_attend := patient |}
                else r) df.

Section Tools.
Context {E : Externals}.

(** [check_availability_by_doctor] *)
Definition check_availability_by_doctor (desired_date doctor_name_arg : string)
  : M string :=
  enter "check_availability_by_doctor" ;;;
  let doctor := strip (lower doctor_name_arg) in
  if negb (existsb (String.eqb doctor) valid_doctors) then
    ret ("Invalid doctor name: '" ++ doctor ++ "'. Valid doctors are: "
         ++ join ", " valid_doctors)
  else if negb (DateModel desired_date) then
    ret ("Invalid date format: " ++ str_exc (ValidationError desired_date)
         ++ ". Please use DD-MM-YYYY format (e.g., 08-08-2024)")
  else
    file <- read_csv ;;
    match file with
    | None => ret "Error: data/doctor_availability.csv file not found"
    | Some df =>
        let on_date r :=
          String.eqb (date_only r) desired_date
          && String.eqb (doctor_name r) doctor in
        let rows := filter (fun r => on_date r && is_available r) df in
        if is_empty rows then
          let all_slots := filter on_date df in
          if (0 <? List.length all_slots)%nat then
            ret ("Dr. " ++ title doctor ++ " has no available slots on "
                 ++ desired_date ++ ". All slots are booked.")
          else
            ret ("Dr. " ++ title doctor ++ " is not available on "
                 ++ desired_date ++ ".")
        else
          match checked_items 0 (map time_only rows) with
          | inr available_times =>
              ret ("Availability for Dr. " ++ title doctor ++ " on "
                   ++ desired_date ++ ":" ++ LF
                   ++ "Available slots: " ++ join ", " available_times)
          | inl e => ret ("Error checking availability: " ++ str_exc e)
          end
    end.

(** [check_availability_by_specialization] *)
Definition check_availability_by_specialization (desired_date : string)
    (specialization_arg : Specialization) : M string :=
  enter "check_availability_by_specialization" ;;;
  if negb (DateModel desired_date) then
    ret ("Invalid date format: " ++ str_exc (ValidationError desired_date)
         ++ ". Please use DD-MM-YYYY format (e.g., 08-08-2024)")
  else
    file <- read_csv ;;
    match file with
    | None => ret file_not_found
    | Some df =>
        let spec := specialization_str specialization_arg in
        let shown := replace "_" " " spec in
        let on_date r :=
          String.eqb (date_only r) desired_date
          && String.eqb (specialization r) spec in
        let filtered_df := filter (fun r => on_date r && is_available r) df in
        if is_empty filtered_df then
          let all_slots := filter on_date df in
          if (0 <? List.length all_slots)%nat then
            ret ("No available slots for " ++ shown ++ " on " ++ desired_date
                 ++ ". All slots are booked.")
          else
            ret ("No " ++ shown ++ " appointments available on "
                 ++ desired_date ++ ". Please try another date.")
        else
          match render_groups (groupby_doctor filtered_df) with
          | inr body =>
              ret (strip ("Available " ++ shown ++ " appointments on "
                          ++ desired_date ++ ":" ++ LF ++ LF ++ body))
          | inl e => ret ("Error checking availability: " ++ str_exc e)
          end
    end.

(** The [try] that validates the arguments of a booking tool. *)
Definition invalid_input (dates : list string) (id_number : Z) : option string :=
  match filter (fun d => negb (DateTimeModel d)) dates with
  | d :: _ => Some ("Invalid input: " ++ str_exc (ValidationError d))
  | [] =>
      if IdentificationNumberModel id_number then None
      else Some ("Invalid input: " ++ str_exc (ValidationError (str id_number)))
  end.

(** [set_appointment] *)
Definition set_appointment (desired_date : string) (id_number : Z)
    (doctor : Doctor) : M string :=
  enter "set_appointment" ;;;
  match invalid_input [desired_date] id_number with
  | Some text => ret text
  | None =>
      file <- read_csv ;;
      match file with
      | None => ret file_not_found
      | Some df =>
          let case := filter (free_slot_of doctor desired_date) df in
          if is_empty case then
            let slot_exists := filter (slot_of doctor desired_date) df in
            if is_empty slot_exists
            then ret (no_slot_exists doctor desired_date)
            else ret (already_booked doctor desired_date)
          else
            to_csv (assign (free_slot_of doctor desired_date)
                           false (Some id_number) df) ;;;
            ret (booked doctor desired_date id_number)
      end
  end.

(** [cancel_appointment].  [pd.to_numeric(..., errors='coerce')] leaves a
    column of nullable numbers as it is. *)
Definition cancel_appointment (date : string) (id_number : Z)
    (doctor : Doctor) : M string :=
  enter "cancel_appointment" ;;;
  match invalid_input [date] id_number with
  | Some text => ret text
  | None =>
      file <- read_csv ;;
      match file with
      | None => ret file_not_found
      | Some df =>
          let case_to_remove := filter (booking_of doctor date id_number) df in
          if is_empty case_to_remove then
            ret (no_appointment_found doctor date id_number)
          else
            to_csv (assign (booking_of doctor date id_number) true None df) ;;;
            ret (cancelled doctor date id_number)
      end
  end.

(** [reschedule_appointment] *)
Definition reschedule_appointment (old_date new_date : string) (id_number : Z)
    (doctor : Doctor) : M string :=
  enter "reschedule_appointment" ;;;
  match invalid_input [old_date; new_date] id_number with
  | Some text => ret text
  | None =>
      file <- read_csv ;;
      match file with
      | None => ret file_not_found
      | Some df =>
          let available_for_desired_date :=
            filter (fun r => String.eqb (date_slot r) new_date
                             && is_available r
                             && String.eqb (doctor_name r) (doctor_str doctor))
                   df in
          if is_empty available_for_desired_date then
            ret (not_available_at doctor new_date)
          else
            cancel_result <- cancel_appointment old_date id_number doctor ;;
            if contains "No appointment found" cancel_result then
              ret cancel_result
            else
              set_result <- set_appointment new_date id_number doctor ;;
              if contains "successfully booked" set_result then
                ret (rescheduled doctor old_date new_date)
              else
                ret set_result
      end
  end.

End Tools.

(** What a call leaves in the world. *)
Definition result {A : Type} (m : M A) (w : World) : A := fst (m w).
Definition after {A : Type} (m : M A) (w : World) : World := snd (m w).

(** A computation that never rewrites the slot-store file. *)
Definition leaves_store {A : Type} (m : M A) : Prop :=
  forall w, csv (after m w) = csv w.

End Toolkit.


(* ===================================================================== *)
(** ** The value formats of the specification                             *)
(* ===================================================================== *)

Module Formats.

Definition all_digits (s : string) : bool :=
  forallb is_digit (list_ascii_of_string s).

(** Modelled from the spec: [DateModel] of [data_models/models.py] is not
    in [src/]; section 6 gives the format of availability-query dates,
    DD-MM-YYYY. *)
Definition date_shape (s : string) : bool :=
  match list_ascii_of_string s with
  | [d1; d2; s1; m1; m2; s2; y1; y2; y3; y4] =>
      forallb is_digit [d1; d2; m1; m2; y1; y2; y3; y4]
      && Ascii.eqb s1 "-" && Ascii.eqb s2 "-"
  | _ => false
  end.

(** Modelled from the spec: [DateTimeModel] of [data_models/models.py] is
    not in [src/]; section 6 gives the format of mutation date-times,
    DD-MM-YYYY HH:MM. *)
Definition date_time_shape (s : string) : bool :=
  match list_ascii_of_string s with
  | [d1; d2; s1; m1; m2; s2; y1; y2; y3; y4; sp; h1; h2; co; n1; n2] =>
      forallb is_digit [d1; d2; m1; m2; y1; y2; y3; y4; h1; h2; n1; n2]
      && Ascii.eqb s1 "-" && Ascii.eqb s2 "-"
      && Ascii.eqb sp " " && Ascii.eqb co ":"
  | _ => false
  end.

(** Modelled from the spec: [IdentificationNumberModel] of
    [data_models/models.py] is not in [src/]; section 6 asks for 7 or 8
    digits. *)
Definition seven_or_eight_digits (id : Z) : bool :=
  (1000000 <=? id)%Z && (id <=? 99999999)%Z.

(** The externals with the formats of the specification, an empty system
    prompt, and exceptions rendered as the name of their class. *)
Definition spec_externals : Externals := {|
  DateModel := date_shape;
  DateTimeModel := date_time_shape;
  IdentificationNumberModel := seven_or_eight_digits;
  system_prompt := EmptyString;
  str_exc := fun e =>
    match e with
    | IndexError => "IndexError"
    | AttributeError => "AttributeError"
    | ValueError _ => "ValueError"
    | TypeError _ => "TypeError"
    | ValidationError _ => "ValidationError"
    | LLMError _ => "LLMError"
    end
|}.

(** A 24-hour time [HH:MM] as the slot store writes it. *)
Definition hh_mm (h m : Z) : string := fmt_02d h ++ ":" ++ fmt_02d m.

(** The check behind the round trip of one time: formatted by
    [convert_to_am_pm], read back by [extracted_time]. *)
Definition round_trip_ok (h m : nat) : bool :=
  let time := hh_mm (Z.of_nat h) (Z.of_nat m) in
  match Toolkit.convert_to_am_pm time with
  | inr text =>
      String.eqb (Agent.extracted_time text) time
      && (negb (h =? 0)%nat
          || String.eqb text ("12:" ++ fmt_02d (Z.of_nat m) ++ " AM"))
      && (negb (h =? 12)%nat
          || String.eqb text ("12:" ++ fmt_02d (Z.of_nat m) ++ " PM"))
  | inl _ => false
  end.

End Formats.


(* ===================================================================== *)
(** ** Sample conversations and slot stores                               *)
(* ===================================================================== *)

Module AgentSamples.
Import Agent.

(** Conversations. *)
Definition user_says (text : string) : Message :=
  {| is_ai := false; name := None; content := text |}.

Definition node_says (node text : string) : Message :=
  {| is_ai := true; name := Some node; content := text |}.

Definition conversation (msgs : list Message) : AgentState :=
  {| messages := msgs; id_number := 1000082; state_next := EmptyString;
     query := EmptyString; current_reasoning := EmptyString |}.

(** A decision model whose every call times out. *)
Definition timing_out (_ : list ChatMessage) : Response :=
  Failed (LLMError "timeout").

(** A decision model that answers, always sending to the booking node. *)
Definition always_booking (_ : list ChatMessage) : Response :=
  Parsed {| next := booking_node; reasoning := "book it" |}.

Definition six_turns : AgentState :=
  conversation
    [user_says "check and book";
     node_says "information_node" "a slot is available";
     node_says "booking_node" "error";
     node_says "information_node" "a slot is available";
     node_says "booking_node" "error";
     node_says "information_node" "a slot is available";
     node_says "booking_node" "error"].

Definition check_and_book : AgentState :=
  conversation [user_says "Can you CHECK and make a booking for 8 august?"].

Definition after_information (answer : string) : AgentState :=
  conversation [user_says "check and book"; node_says "information_node" answer].

End AgentSamples.


Module ToolkitSamples.
Import Toolkit.

(** Slot stores. *)
Definition slot (date doctor : string) (free : bool) (patient : option Z)
  : Slot :=
  {| date_slot := date; specialization := "general_dentist";
     doctor_name := doctor; is_available := free;
     patient_to_attend := patient |}.

Definition store (rows : DataFrame) : World :=
  {| csv := Some rows; entered := [] |}.

(** The seeded store of the specification's scenario, with one more slot. *)
Definition seeded_rows : DataFrame :=
  [slot "08-08-2024 20:00" "emily johnson" true None;
   slot "09-08-2024 10:30" "emily johnson" true None;
   slot "08-08-2024 09:30" "john doe" false (Some 1000083%Z)].

Definition seeded : World := store seeded_rows.

(** The same store once patient 1000082 holds the 20:00 slot. *)
Definition booked_rows : DataFrame :=
  [slot "08-08-2024 20:00" "emily johnson" false (Some 1000082%Z);
   slot "09-08-2024 10:30" "emily johnson" true None;
   slot "08-08-2024 09:30" "john doe" false (Some 1000083%Z)].

Definition with_booking : World := store booked_rows.

(** A store file with a header and no rows. *)
Definition no_rows : World := store [].

End ToolkitSamples.


(* ===================================================================== *)
(** ** Tool calls and what they keep                                      *)
(* ===================================================================== *)

Module Store.
Import Toolkit.

(** A call of one of the five tools with its arguments. *)
Inductive ToolCall : Type :=
| by_doctor (desired_date doctor : string)
| by_specialization (desired_date : string) (spec : Specialization)
| set (desired_date : string) (id_number : Z) (doctor : Doctor)
| cancel (date : string) (id_number : Z) (doctor : Doctor)
| reschedule (old_date new_date : string) (id_number : Z) (doctor : Doctor).

Definition call {E : Externals} (c : ToolCall) : M string :=
  match c with
  | by_doctor d n => check_availability_by_doctor d n
  | by_specialization d s => check_availability_by_specialization d s
  | set d i n => set_appointment d i n
  | cancel d i n => cancel_appointment d i n
  | reschedule o n i d => reschedule_appointment o n i d
  end.

(** The columns of a row that identify the slot. *)
Definition slot_key (r : Slot) : string * string * string :=
  (date_slot r, specialization r, doctor_name r).

Definition key_columns (df : DataFrame) : list (string * string * string) :=
  map slot_key df.

(** A row is coherent when it is available exactly if it has no patient. *)
Definition coherent (r : Slot) : bool :=
  match patient_to_attend r with
  | None => is_available r
  | Some _ => negb (is_available r)
  end.

(** A relation between the table before and after a computation: the
    file is neither created nor deleted, and if there is one its old and new
    contents are related. *)
Definition keeps {A : Type} (R : DataFrame -> DataFrame -> Prop) (m : M A)
  : Prop :=
  forall w,
    match csv w, csv (after m w) with
    | Some before, Some after => R before after
    | None, None => True
    | _, _ => False
    end.

End Store.


(* ===================================================================== *)
(** ** The handler nodes and the graph of [src/agent.py]                  *)
(* ===================================================================== *)

Module Nodes.
Import Agent.

(** What [agent.invoke(...)] of a react agent gives its caller: the content
    of the last message of the dialogue, or the text of the exception it
    raised. *)
Inductive AgentResult : Type :=
| Answered (final_message : string)
| AgentFailed (error_msg : string).

(** The language-model side of the graph: the structured-output model of
    the supervisor, the two react agents and the prompt templates.  An
    agent runs in the world of the tools, which it may call; the booking
    agent is given its system prompt, the user line of its prompt template
    and the message of its state.  [template_error text] is the exception
    [ChatPromptTemplate.from_messages] raises when the system text [text]
    is not a well-formed template (a brace opened and not closed, or closed
    and not opened), if it raises.  The template of the information node
    is a constant of the source; building an agent is taken not to
    raise. *)
Class Models : Type := {
  llm : list ChatMessage -> Response;
  information_agent : AgentState -> Toolkit.M AgentResult;
  booking_agent : string -> string -> string -> Toolkit.M AgentResult;
  template_error : string -> option PyExc
}.

(** [Command(update={"messages": [AIMessage(content=..., name=node)]},
    goto="supervisor")] of a handler node: the message it adds. *)
Definition handler_message (node content : string) : Message :=
  {| is_ai := true; name := Some node; content := content |}.

(** The longest prefix of [s] whose characters satisfy [p], and the rest. *)
Fixpoint span (p : ascii -> bool) (s : string) : string * string :=
  match s with
  | String c t =>
      if p c then let (a, b) := span p t in (String c a, b)
      else (EmptyString, s)
  | EmptyString => (EmptyString, EmptyString)
  end.

(** The last character of a string, as a string. *)
Fixpoint last_char (s : string) : string :=
  match s with
  | EmptyString => EmptyString
  | String c EmptyString => String c EmptyString
  | String _ t => last_char t
  end.

(** [Dr\.\s+([A-Za-z\s]+)] at the start of [s]: group 1.  The blanks after
    the dot are taken greedily; if no letter follows them, the last of two
    or more blanks is given back to the group. *)
Definition match_doctor (s : string) : option string :=
  match s with
  | String "D" (String "r" (String "." rest)) =>
      let (blanks, after) := span is_space rest in
      let (group, _) := span (fun c => is_alpha c || is_space c) after in
      match blanks, group with
      | EmptyString, _ => None
      | _, String _ _ => Some group
      | String _ (String _ _), EmptyString => Some (last_char blanks)
      | String _ EmptyString, EmptyString => None
      end
  | _ => None
  end.

(** [re.search(r'Dr\.\s+([A-Za-z\s]+)', s)] *)
Fixpoint search_doctor (s : string) : option string :=
  match match_doctor s with
  | Some g => Some g
  | None =>
      match s with
      | String _ t => search_doctor t
      | EmptyString => None
      end
  end.

(** [(\d{2}-\d{2}-\d{4})] at the start of [s]. *)
Definition match_date (s : string) : option string :=
  match s with
  | String d1 (String d2 (String "-" (String m1 (String m2 (String "-"
      (String y1 (String y2 (String y3 (String y4 _))))))))) =>
      if forallb is_digit [d1; d2; m1; m2; y1; y2; y3; y4]
      then Some (string_of_list_ascii
                   [d1; d2; "-"%char; m1; m2; "-"%char; y1; y2; y3; y4])
      else None
  | _ => None
  end.

(** [re.search(r'(\d{2}-\d{2}-\d{4})', s)] *)
Fixpoint search_date (s : string) : option string :=
  match match_date s with
  | Some g => Some g
  | None =>
      match s with
      | String _ t => search_date t
      | EmptyString => None
      end
  end.

(** [availability_info]: the content of the last message named
    [information_node], or the empty string (lines 224-225). *)
Definition availability_info (state : AgentState) : string :=
  match rev (filter (has_name "information_node") (messages state)) with
  | m :: _ => content m
  | [] => EmptyString
  end.

(** [extracted_doctor] and [extracted_date] (lines 229-230, 247-248). *)
Definition extracted_doctor (info : string) : string :=
  match search_doctor info with
  | Some g => lower (strip g)
  | None => EmptyString
  end.

Definition extracted_date (info : string) : string :=
  match search_date info with
  | Some g => g
  | None => EmptyString
  end.

(** Truth of a string: it is not empty. *)
Definition truthy (s : string) : bool :=
  match s with EmptyString => false | String _ _ => true end.

(** The doctor a name of the [Literal] stands for; a tool called with any
    other name rejects its arguments. *)
Definition doctor_named (name : string) : option Toolkit.Doctor :=
  find (fun d => String.eqb (Toolkit.doctor_str d) name)
       [Toolkit.kevin_anderson; Toolkit.robert_martinez; Toolkit.susan_davis;
        Toolkit.daniel_miller; Toolkit.sarah_wilson; Toolkit.michael_green;
        Toolkit.lisa_brown; Toolkit.jane_smith; Toolkit.emily_johnson;
        Toolkit.john_doe].

(** The handler turns a conversation has had. *)
Definition turns (state : AgentState) : nat :=
  calls "information_node" state + calls "booking_node" state.

(** A message added by one of the two handler nodes. *)
Definition handler_named (m : Message) : Prop :=
  name m = Some "information_node" \/ name m = Some "booking_node".

(** The nodes of the graph. *)
Inductive Node : Type :=
| supervisor | at_information_node | at_booking_node | at_end.

(** How an invocation of the graph ends: at [END], with an exception, or
    still running when the step budget is used up. *)
Inductive Ending : Type :=
| Finished (state : AgentState)
| Crashed (e : PyExc)
| Unfinished (state : AgentState).

(** [add_messages]: a new message without id goes to the end. *)
Definition add_messages (state : AgentState) (m : Message) : AgentState :=
  {| messages := (messages state ++ [m])%list;
     id_number := id_number state;
     state_next := state_next state;
     query := query state;
     current_reasoning := current_reasoning state |}.

(** The update of a supervisor [Command] applied to the state. *)
Definition apply_update (state : AgentState) (c : Command) : AgentState :=
  {| messages := messages state;
     id_number := id_number state;
     state_next := match update_next c with
                   | information_node => "information_node"
                   | booking_node => "booking_node"
                   | FINISH => "FINISH"
                   end;
     query := query state;
     current_reasoning := update_current_reasoning c |}.

Section Handlers.
#[local] Set Warnings "-notation-overridden".
Import Toolkit.
Context {E : Externals} {L : Models}.

(** [DoctorAppointmentAgent.information_node]: the message it adds. *)
Definition information_node (state : AgentState) : M Message :=
  outcome <- information_agent state ;;
  match outcome with
  | Answered final_message =>
      ret (handler_message "information_node" final_message)
  | AgentFailed error_msg =>
      if contains "tool call validation failed" error_msg
         && contains "doctor_name" error_msg
      then
        let user_query :=
          match messages state with
          | m :: _ => content m
          | [] => EmptyString
          end in
        if contains "8 august 2024" (lower user_query)
           || contains "08-08-2024" user_query
        then
          result <- check_availability_by_specialization
                      "08-08-2024" general_dentist ;;
          ret (handler_message "information_node" result)
        else
          ret (handler_message "information_node"
                 "I apologize, but I need to check availability by specialization first. Let me search for available general dentists on that date.")
      else
        ret (handler_message "information_node"
               ("I encountered an error while checking availability: "
                ++ error_msg))
  end.

(** [set_appointment.invoke({...})] with a doctor name that is any string:
    a name outside the [Literal] is rejected before the tool runs. *)
Definition invoke_set_appointment (desired_date : string) (id : Z)
    (doctor : string) : M (PyExc + string) :=
  match doctor_named doctor with
  | Some d => text <- set_appointment desired_date id d ;; ret (inr text)
  | None => ret (inl (ValidationError doctor))
  end.

(** The f-string [booking_system_prompt] (lines 250-283). *)
Definition booking_system_prompt (id : Z)
    (info doctor date time : string) : string :=
  "You are a specialized booking agent. Your ONLY job is to book appointments." ++ LF ++ LF ++
  "    AVAILABLE TOOLS - YOU MUST USE ONE OF THESE:" ++ LF ++
  "    1. set_appointment(desired_date, id_number, doctor_name) - Book a new appointment" ++ LF ++
  "    2. cancel_appointment(date, id_number, doctor_name) - Cancel an appointment  " ++ LF ++
  "    3. reschedule_appointment(old_date, new_date, id_number, doctor_name) - Reschedule an appointment" ++ LF ++ LF ++
  "    CRITICAL: DO NOT try to call any other tools. Only use the 3 tools listed above." ++ LF ++ LF ++
  "    CURRENT BOOKING CONTEXT:" ++ LF ++
  "    - Patient ID: " ++ str id ++ LF ++
  "    - Availability check result: " ++ info ++ LF ++
  "    - Extracted doctor name: " ++ doctor ++ LF ++
  "    - Extracted date: " ++ date ++ LF ++
  "    - Extracted time: " ++ time ++ LF ++ LF ++
  "    INSTRUCTIONS FOR BOOKING:" ++ LF ++
  "    1. The user wants to BOOK an appointment" ++ LF ++
  "    2. Use the extracted information above to call set_appointment" ++ LF ++
  "    3. Parameters:" ++ LF ++
  "    - desired_date: " ++ DQ ++ date ++ " " ++ time ++ DQ ++
    " (format: DD-MM-YYYY HH:MM)" ++ LF ++
  "    - id_number: " ++ str id ++ LF ++
  "    - doctor_name: " ++ DQ ++ doctor ++ DQ ++ " (must be lowercase)" ++ LF ++ LF ++
  "    VALID DOCTOR NAMES (use exactly as listed):" ++ LF ++
  "    kevin anderson, robert martinez, susan davis, daniel miller, sarah wilson," ++ LF ++
  "    michael green, lisa brown, jane smith, emily johnson, john doe" ++ LF ++ LF ++
  "    EXAMPLE:" ++ LF ++
  "    If extracted data shows: doctor=" ++ DQ ++ "Emily Johnson" ++ DQ ++
    ", date=" ++ DQ ++ "08-08-2024" ++ DQ ++ ", time=" ++ DQ ++ "20:00" ++ DQ ++ LF ++
  "    Call: set_appointment(desired_date=" ++ DQ ++ "08-08-2024 20:00" ++ DQ ++
    ", id_number=" ++ str id ++ ", doctor_name=" ++ DQ ++ "emily johnson" ++ DQ ++ ")" ++ LF ++ LF ++
  "    NOW PROCEED TO BOOK THE APPOINTMENT using set_appointment tool with the extracted information." ++ LF ++
  "    ".

(** The direct invocation both failure paths of [booking_node] fall back
    to: [set_appointment] with the extracted parameters, its result as the
    message, or the text of its exception after [failure_prefix]. *)
Definition direct_booking (failure_prefix : string) (id : Z)
    (doctor date time : string) : M string :=
  let datetime_str := date ++ " " ++ time in
  direct_result <- invoke_set_appointment datetime_str id doctor ;;
  match direct_result with
  | inr text => ret text
  | inl e => ret (failure_prefix ++ str_exc e)
  end.

(** The system text [booking_node] builds from a state (lines 224-283). *)
Definition booking_prompt (state : AgentState) : string :=
  let info := availability_info state in
  booking_system_prompt (id_number state) info (extracted_doctor info)
    (extracted_date info) (extracted_time info).

(** [DoctorAppointmentAgent.booking_node]: the message it adds, or the
    exception it raises.  The prompt template is built from the system text
    before the [try] (lines 285-290): an exception of
    [ChatPromptTemplate.from_messages] leaves the node; everything after it
    is caught. *)
Definition booking_node (state : AgentState) : M (PyExc + Message) :=
  let info := availability_info state in
  let doctor := extracted_doctor info in
  let time := extracted_time info in
  let date := extracted_date info in
  let id := id_number state in
  let complete := truthy doctor && truthy date && truthy time in
  match template_error (booking_system_prompt id info doctor date time) with
  | Some e => ret (inl e)
  | None =>
      outcome <- booking_agent
                   (booking_system_prompt id info doctor date time)
                   "Please book the appointment with the information provided. Use set_appointment tool now."
                   ("Book appointment for patient " ++ str id ++ " with Dr. "
                    ++ doctor ++ " on " ++ date ++ " at " ++ time) ;;
      final_message <-
        match outcome with
        | Answered final_message =>
            if negb (truthy final_message)
               || contains "error" (lower final_message)
            then
              if complete
              then direct_booking "Failed to book appointment: " id doctor date time
              else ret ("Could not extract booking details. Doctor: " ++ doctor
                        ++ ", Date: " ++ date ++ ", Time: " ++ time)
            else ret final_message
        | AgentFailed error_msg =>
            if complete
            then direct_booking "Booking failed: " id doctor date time
            else ret ("I encountered an error and could not extract booking information: "
                      ++ error_msg)
        end ;;
      ret (inr (handler_message "booking_node" final_message))
  end.

(** [workflow]: the graph that starts at the supervisor, lets each command
    choose the next node and sends every handler back to the supervisor;
    an exception that leaves a node ends the invocation.  [budget] counts
    the nodes that may still run. *)
Fixpoint invoke (budget : nat) (node : Node) (state : AgentState)
  : M Ending :=
  match budget with
  | O => ret (match node with
              | at_end => Finished state
              | _ => Unfinished state
              end)
  | S budget' =>
      match node with
      | at_end => ret (Finished state)
      | supervisor =>
          match run llm (supervisor_node state) with
          | Raised e => ret (Crashed e)
          | Returned c =>
              invoke budget'
                (match goto c with
                 | goto_information_node => at_information_node
                 | goto_booking_node => at_booking_node
                 | END => at_end
                 end)
                (apply_update state c)
          end
      | at_information_node =>
          m <- information_node state ;;
          invoke budget' supervisor (add_messages state m)
      | at_booking_node =>
          outcome <- booking_node state ;;
          match outcome with
          | inl e => ret (Crashed e)
          | inr m => invoke budget' supervisor (add_messages state m)
          end
      end
  end.

(** The call of the booking agent inside [booking_node] (lines 298-306). *)
Definition booking_dialogue (state : AgentState) : M AgentResult :=
  let info := availability_info state in
  let doctor := extracted_doctor info in
  let time := extracted_time info in
  let date := extracted_date info in
  let id := id_number state in
  booking_agent
    (booking_system_prompt id info doctor date time)
    "Please book the appointment with the information provided. Use set_appointment tool now."
    ("Book appointment for patient " ++ str id ++ " with Dr. "
     ++ doctor ++ " on " ++ date ++ " at " ++ time).

(** The outcomes of the dialogue after which [booking_node] tries the
    direct invocation: an exception, an empty answer, or an answer with
    "error" in it. *)
Definition dialogue_failed (outcome : AgentResult) : bool :=
  match outcome with
  | AgentFailed _ => true
  | Answered final_message =>
      negb (truthy final_message) || contains "error" (lower final_message)
  end.

(** The default [recursion_limit] of a compiled graph. *)
Definition recursion_limit : nat := 25.

(** [app.invoke(state)] *)
Definition app_invoke (state : AgentState) : M Ending :=
  invoke recursion_limit supervisor state.

End Handlers.

End Nodes.


Module NodeSamples.
Import Agent Nodes AgentSamples.

(** A reading of template texts: a doubled brace stands for itself, an
    opening brace starts a field that the next closing brace ends.  It
    gives [true] when a brace is closed without being opened, or a field
    is still open at the end. *)
Fixpoint unbalanced (in_field : bool) (s : string) : bool :=
  match s with
  | EmptyString => in_field
  | String c t =>
      if in_field then
        if Ascii.eqb c "}" then unbalanced false t else unbalanced true t
      else if Ascii.eqb c "{" then
        match t with
        | String "{" t' => unbalanced false t'
        | _ => unbalanced true t
        end
      else if Ascii.eqb c "}" then
        match t with
        | String "}" t' => unbalanced false t'
        | _ => true
        end
      else unbalanced false t
  end.

Definition unbalanced_raises (text : string) : option PyExc :=
  if unbalanced false text then Some (ValueError text) else None.

(** Models of which every call fails: the decision model times out, the
    information agent trips over a tool-call validation of [doctor_name],
    the booking agent raises.  Templates are read as above. *)
Definition failing : Models := {|
  llm := timing_out;
  information_agent := fun _ =>
    Toolkit.ret (AgentFailed "tool call validation failed for doctor_name");
  booking_agent := fun _ _ _ => Toolkit.ret (AgentFailed "connection lost");
  template_error := unbalanced_raises
|}.

(** The same models with an information agent that answers with a text
    holding an opening brace. *)
Definition answering_with_brace : Models := {|
  llm := timing_out;
  information_agent := fun _ =>
    Toolkit.ret (Answered "Dr. Emily Johnson is available { 8:00 PM");
  booking_agent := fun _ _ _ => Toolkit.ret (AgentFailed "connection lost");
  template_error := unbalanced_raises
|}.

(** The request of the user interface's default query. *)
Definition first_request : AgentState :=
  conversation
    [user_says "Can you check and make a booking if general dentist available on 8 august 2024 at 8 pm?"].

(** A request that only asks, and the same conversation once the
    information node has answered with the text of
    [check_availability_by_specialization] for a date without any row of
    the specialization. *)
Definition availability_request : AgentState :=
  conversation
    [user_says "Can you check if a general dentist is available on 8 august 2024?"].

Definition no_appointments_text : string :=
  "No general dentist appointments available on 08-08-2024. Please try another date.".

Definition told_no_appointments : AgentState :=
  conversation
    [user_says "Can you check if a general dentist is available on 8 august 2024?";
     node_says "information_node" no_appointments_text].

(** The same request after an information turn and a booking turn. *)
Definition served_request : AgentState :=
  conversation
    [user_says "check and book";
     node_says "information_node" "Dr. Emily Johnson: 8:00 PM";
     node_says "booking_node" "Appointment successfully booked!"].

End NodeSamples.


(* ===================================================================== *)
(** ** The retry listing read by the booking node                         *)
(* ===================================================================== *)

Module Pipeline.
Import Toolkit Formats.






End Pipeline.


(* ===================================================================== *)
(** ** Properties of the supervisor                                       *)
(* ===================================================================== *)

Module AgentSpec.
Import Agent Formats AgentSamples.

Lemma getitem_last_snoc {A : Type} (xs : list A) (x : A) :
  getitem_last (xs ++ [x])%list = Ret x.
Proof. unfold getitem_last. rewrite rev_unit. reflexivity. Qed.

Lemma getitem_last_cases {A : Type} (xs : list A) :
  (xs = [] /\ getitem_last xs = Raise IndexError) \/
  (exists before x, xs = (before ++ [x])%list /\ getitem_last xs = Ret x).
Proof.
  destruct (rev xs) as [|x r] eqn:Hr.
  - left. apply (f_equal (@rev A)) in Hr. rewrite rev_involutive in Hr.
    subst xs. split; reflexivity.
  - right. exists (rev r), x.
    assert (Hxs : xs = (rev r ++ [x])%list).
    { rewrite <- (rev_involutive xs), Hr. reflexivity. }
    split; [exact Hxs|]. rewrite Hxs. apply getitem_last_snoc.
Qed.


Section Facts.
Context {E : Externals}.

(** On a conversation without messages the supervisor stops with
    [IndexError] at line 62, before it reaches the decision model. *)
Lemma supervisor_node_no_messages (st : AgentState) :
  messages st = [] -> supervisor_node st = Raise IndexError.
Proof.
  intros Hm. unfold supervisor_node, calls. rewrite Hm. reflexivity.
Qed.

(** When the supervisor reaches the decision model: below the ceiling,
    with a last message, and with the prompt built from them. *)
Lemma asks_supervisor_node (st : AgentState) (prompt : list ChatMessage) :
  asks (supervisor_node st) = Some prompt ->
  (calls "information_node" st + calls "booking_node" st < 6)%nat /\
  exists before last,
    messages st = (before ++ [last])%list /\
    supervisor_node st =
      (decision <- try_invoke prompt
                     (fallback st (calls "information_node" st)
                                  (calls "booking_node" st)) ;;
       Ret (command decision)).
Proof.
  unfold supervisor_node.
  destruct (6 <=? _)%nat eqn:Hguard; [discriminate|].
  apply Nat.leb_gt in Hguard. intros Hasks. split; [exact Hguard|].
  destruct (getitem_last_cases (messages st)) as [[_ Hl]|(before & x & Hm & Hl)];
    rewrite Hl in Hasks |- *.
  - discriminate.
  - exists before, x. split; [exact Hm|].
    cbn [bind try_invoke asks] in Hasks |- *.
    injection Hasks as <-. reflexivity.
Qed.

(** The supervisor reaches the decision model exactly below the ceiling and
    with at least one message. *)
Lemma supervisor_reaches_model (st : AgentState) :
  (calls "information_node" st + calls "booking_node" st < 6)%nat ->
  messages st <> [] ->
  exists prompt, asks (supervisor_node st) = Some prompt.
Proof.
  intros Hlt Hne. unfold supervisor_node.
  apply Nat.leb_gt in Hlt. rewrite Hlt.
  destruct (getitem_last_cases (messages st)) as [[Hm _]|(before & x & _ & Hl)].
  - contradiction.
  - rewrite Hl. cbn [bind try_invoke asks]. eexists. reflexivity.
Qed.

(** A failed primary decision hands the step to the fallback. *)
Lemma failed_decision_runs_fallback
    (llm : list ChatMessage -> Response) (st : AgentState) :
  primary_decision_fails llm st ->
  run llm (supervisor_node st) =
  run llm (decision <- fallback st (calls "information_node" st)
                                   (calls "booking_node" st) ;;
           Ret (command decision)).
Proof.
  intros (prompt & Hasks & Hfail).
  destruct (asks_supervisor_node st prompt Hasks) as (_ & before & last & _ & Hs).
  rewrite Hs. cbn [bind try_invoke run].
  destruct (llm prompt); [discriminate| reflexivity | reflexivity].
Qed.

(** With a last message the fallback is one of its [Ret] leaves. *)
Lemma fallback_returns (st : AgentState) (ic bc : nat) :
  messages st <> [] ->
  exists r why, fallback st ic bc = Ret (r, why).
Proof.
  intros Hne. unfold fallback.
  destruct (getitem_last_cases (messages st)) as [[Hm _]|(before & x & _ & Hl)];
    [contradiction|].
  rewrite Hl. cbn [bind].
  repeat match goal with
         | |- context [if ?b then _ else _] => destruct b
         end; eexists; eexists; reflexivity.
Qed.

End Facts.

Section Claims.
Context {E : Externals}.

(** C1.  Whenever the messages named [information_node] and those named
    [booking_node] number six or more together, the supervisor step is the
    terminal command with rationale "Maximum iterations reached": it makes
    no call to the decision model, so every model gives this result,
    whatever the messages contain. *)
Theorem supervisor_loop_guard (st : AgentState) :
  (6 <= calls "information_node" st + calls "booking_node" st)%nat ->
  supervisor_node st =
    Ret {| goto := END; update_next := FINISH;
           update_current_reasoning := "Maximum iterations reached" |}
  /\ asks (supervisor_node st) = None
  /\ forall llm,
       run llm (supervisor_node st) =
       Returned {| goto := END; update_next := FINISH;
                   update_current_reasoning := "Maximum iterations reached" |}.
Proof.
  intros Hge. apply Nat.leb_le in Hge.
  assert (Hs : supervisor_node st =
               Ret {| goto := END; update_next := FINISH;
                      update_current_reasoning := "Maximum iterations reached" |}).
  { unfold supervisor_node. rewrite Hge. reflexivity. }
  rewrite Hs. repeat split.
Qed.

(** C2.  Whenever the supervisor's call to the decision model fails (the
    model raises, or returns no decision object), the supervisor step
    returns a command and does not raise.  The command carries the decision
    of the fallback policy: the policy returns a route and a rationale, the
    command records that route as [next] and that rationale as the current
    reasoning, and it goes where the route says: to the information node,
    to the booking node, or to the end for FINISH. *)
Theorem supervisor_handles_decision_failure
    (llm : list ChatMessage -> Response) (st : AgentState) :
  primary_decision_fails llm st ->
  exists r why c,
    fallback st (calls "information_node" st) (calls "booking_node" st)
      = Ret (r, why)
    /\ run llm (supervisor_node st) = Returned c
    /\ update_next c = r
    /\ update_current_reasoning c = why
    /\ goto c = match r with
                | information_node => goto_information_node
                | booking_node => goto_booking_node
                | FINISH => END
                end.
Proof.
  intros Hfail.
  rewrite (failed_decision_runs_fallback llm st Hfail).
  destruct Hfail as (prompt & Hasks & _).
  destruct (asks_supervisor_node st prompt Hasks) as (_ & before & last & Hm & _).
  destruct (fallback_returns st (calls "information_node" st)
              (calls "booking_node" st)) as (r & why & Hf).
  { rewrite Hm. destruct before; discriminate. }
  exists r, why, (command (r, why)). rewrite Hf. cbn [bind run].
  repeat split.
Qed.


(** The substring tests of lines 93-110.  When the last message is named
    [information_node] and the primary decision fails, the fallback reads
    its lower-cased text: with "available" or "slot" in it and neither "no
    available" nor "not available" the command goes to the booking node;
    with one of these two it goes to the end; with none of the four, it
    goes to the booking node if the first message has both "check" and
    "book" and no message is named [booking_node], and to the end
    otherwise. *)
Lemma fallback_reads_substrings
    (llm : list ChatMessage -> Response) (st : AgentState)
    (before : list Message) (last first : Message) :
  primary_decision_fails llm st ->
  messages st = (before ++ [last])%list ->
  has_name "information_node" last = true ->
  hd_error (messages st) = Some first ->
  let text := lower (content last) in
  let positive := contains "available" text || contains "slot" text in
  let negative := contains "no available" text || contains "not available" text in
  let check_and_book :=
    contains "check" (lower (content first))
    && contains "book" (lower (content first)) in
  (positive = true -> negative = false ->
   run llm (supervisor_node st) =
   Returned {| goto := goto_booking_node;
               update_next := booking_node;
               update_current_reasoning :=
                 "Fallback: availability confirmed, routing to booking" |})
  /\ (negative = true ->
      run llm (supervisor_node st) =
      Returned {| goto := END;
                  update_next := FINISH;
                  update_current_reasoning :=
                    "Fallback: no availability found" |})
  /\ (positive = false -> negative = false ->
      check_and_book = true -> calls "booking_node" st = 0%nat ->
      run llm (supervisor_node st) =
      Returned {| goto := goto_booking_node;
                  update_next := booking_node;
                  update_current_reasoning :=
                    "Fallback: proceeding to booking as requested" |})
  /\ (positive = false -> negative = false ->
      (check_and_book = false \/ calls "booking_node" st <> 0%nat) ->
      run llm (supervisor_node st) =
      Returned {| goto := END;
                  update_next := FINISH;
                  update_current_reasoning :=
                    "Fallback: information provided" |}).
Proof.
  intros Hfail Hm Hname Hfirst text positive negative check_and_book.
  assert (Hrun :
    run llm (supervisor_node st) =
    run llm
      (decision <-
         (if positive && negb negative
          then Ret (booking_node,
                    "Fallback: availability confirmed, routing to booking")
          else if negative
          then Ret (FINISH, "Fallback: no availability found")
          else if check_and_book && (calls "booking_node" st =? 0)%nat
          then Ret (booking_node,
                    "Fallback: proceeding to booking as requested")
          else Ret (FINISH, "Fallback: information provided")) ;;
       Ret (command decision))).
  { rewrite (failed_decision_runs_fallback llm st Hfail).
    unfold fallback. rewrite Hm at 1. rewrite getitem_last_snoc.
    cbn [bind]. rewrite Hname.
    destruct (messages st) as [|m ms]; [discriminate|].
    cbn in Hfirst. injection Hfirst as ->.
    unfold negative. rewrite negb_orb. reflexivity. }
  rewrite Hrun. repeat split.
  - intros -> ->. reflexivity.
  - intros ->. cbn [negb]. rewrite andb_false_r. reflexivity.
  - intros -> -> -> ->. reflexivity.
  - intros -> -> [-> | Hbc]; cbn [andb negb bind run]; [reflexivity|].
    apply Nat.eqb_neq in Hbc. rewrite Hbc. rewrite andb_false_r. reflexivity.
Qed.

End Claims.

(** The loop guard on a conversation with three turns of each handler. *)
Lemma supervisor_loop_guard_witness :
  (6 <= calls "information_node" six_turns + calls "booking_node" six_turns)%nat
  /\ forall llm,
       run llm (supervisor_node (E := spec_externals) six_turns) =
       Returned {| goto := END; update_next := FINISH;
                   update_current_reasoning := "Maximum iterations reached" |}.
Proof.
  assert (H : (6 <= calls "information_node" six_turns
                    + calls "booking_node" six_turns)%nat)
    by (vm_compute; lia).
  split; [exact H|].
  exact (proj2 (proj2 (supervisor_loop_guard (E := spec_externals) six_turns H))).
Defined.

Lemma timing_out_fails (st : AgentState) :
  (calls "information_node" st + calls "booking_node" st < 6)%nat ->
  messages st <> [] ->
  primary_decision_fails (E := spec_externals) timing_out st.
Proof.
  intros Hlt Hne.
  destruct (supervisor_reaches_model (E := spec_externals) st Hlt Hne)
    as (prompt & Hp).
  exists prompt. split; [exact Hp | reflexivity].
Defined.

(** A timed-out decision on a first user message still yields a command,
    which carries the decision of the fallback. *)
Lemma supervisor_handles_decision_failure_witness :
  primary_decision_fails (E := spec_externals) timing_out check_and_book
  /\ exists r why c,
       fallback check_and_book 0 0 = Ret (r, why)
       /\ run timing_out (supervisor_node (E := spec_externals) check_and_book)
          = Returned c
       /\ update_next c = r
       /\ update_current_reasoning c = why.
Proof.
  assert (H : primary_decision_fails (E := spec_externals) timing_out
                check_and_book).
  { apply timing_out_fails; [vm_compute; lia | discriminate]. }
  split; [exact H|].
  destruct (supervisor_handles_decision_failure (E := spec_externals)
              timing_out check_and_book H)
    as (r & why & c & Hf & Hrun & Hnext & Hwhy & _).
  exists r, why, c. repeat split; assumption.
Defined.


(** An information turn that lists a slot sends a failed decision to the
    booking node. *)
Lemma fallback_reads_substrings_witness :
  let st := after_information "Dr. Emily Johnson: 8:00 PM slot" in
  primary_decision_fails (E := spec_externals) timing_out st
  /\ run timing_out (supervisor_node (E := spec_externals) st)
     = Returned {| goto := goto_booking_node;
                   update_next := booking_node;
                   update_current_reasoning :=
                     "Fallback: availability confirmed, routing to booking" |}.
Proof.
  intros st.
  assert (H : primary_decision_fails (E := spec_externals) timing_out st).
  { apply timing_out_fails; [vm_compute; lia | discriminate]. }
  split; [exact H|].
  refine (proj1 (fallback_reads_substrings (E := spec_externals) timing_out st
                   [user_says "check and book"] _ _ H eq_refl eq_refl eq_refl)
                _ _); reflexivity.
Defined.

(** The ceiling also stops a model that keeps sending to the booking node. *)
Example six_turns_always_booking :
  run always_booking (supervisor_node (E := spec_externals) six_turns)
  = Returned {| goto := END; update_next := FINISH;
                update_current_reasoning := "Maximum iterations reached" |}.
Proof. reflexivity. Qed.

(** Below the ceiling a well-formed decision is applied as it is. *)
Example check_and_book_always_booking :
  run always_booking (supervisor_node (E := spec_externals) check_and_book)
  = Returned {| goto := goto_booking_node; update_next := booking_node;
                update_current_reasoning := "book it" |}.
Proof. reflexivity. Qed.

(** A model that returns no object is handled like one that raises. *)
Example check_and_book_no_object :
  run (fun _ => NoObject) (supervisor_node (E := spec_externals) check_and_book)
  = Returned (command (information_node,
                       "Fallback: checking availability first")).
Proof. reflexivity. Qed.

(** After a booking turn a failed decision ends the conversation. *)
Example after_booking_turn :
  run timing_out
      (supervisor_node (E := spec_externals)
         (conversation [user_says "check and book";
                        node_says "information_node" "a slot is available";
                        node_says "booking_node" "booked"]))
  = Returned (command (FINISH, "Fallback: booking complete")).
Proof. reflexivity. Qed.

(** Without any message the step raises before it asks the model. *)
Example no_messages_raise :
  run timing_out (supervisor_node (E := spec_externals) (conversation []))
  = Raised IndexError.
Proof. reflexivity. Qed.

End AgentSpec.


(* ===================================================================== *)
(** ** From the availability text back to the slot time                   *)
(* ===================================================================== *)

Module TimeSpec.
Import Formats.

Lemma round_trip_table :
  forallb (fun h => forallb (round_trip_ok h) (seq 0 60)) (seq 0 24) = true.
Proof. vm_compute. reflexivity. Qed.

Lemma round_trip_ok_in_range (h m : nat) :
  (h < 24)%nat -> (m < 60)%nat -> round_trip_ok h m = true.
Proof.
  intros Hh Hm.
  pose proof round_trip_table as Ht.
  rewrite forallb_forall in Ht.
  specialize (Ht h). rewrite in_seq in Ht.
  assert (Hrow : forallb (round_trip_ok h) (seq 0 60) = true) by (apply Ht; lia).
  rewrite forallb_forall in Hrow. apply Hrow. rewrite in_seq. lia.
Qed.

(** C10.  A slot time HH:MM with HH in 0..23 and MM in 0..59 is rendered by
    [convert_to_am_pm] to a 12-hour text from which the time extraction of
    the booking node recovers HH:MM itself; 00:MM goes through "12:MM AM"
    and 12:MM through "12:MM PM". *)
Theorem am_pm_round_trip (h m : Z) :
  (0 <= h <= 23)%Z -> (0 <= m <= 59)%Z ->
  exists text,
    Toolkit.convert_to_am_pm (hh_mm h m) = inr text
    /\ Agent.extracted_time text = hh_mm h m
    /\ (h = 0%Z -> text = "12:" ++ fmt_02d m ++ " AM")
    /\ (h = 12%Z -> text = "12:" ++ fmt_02d m ++ " PM").
Proof.
  intros Hh Hm.
  assert (Hok : round_trip_ok (Z.to_nat h) (Z.to_nat m) = true)
    by (apply round_trip_ok_in_range; lia).
  unfold round_trip_ok in Hok.
  rewrite !Z2Nat.id in Hok by lia.
  destruct (Toolkit.convert_to_am_pm (hh_mm h m)) as [e|text]; [discriminate|].
  apply andb_true_iff in Hok. destruct Hok as [Hok H12].
  apply andb_true_iff in Hok. destruct Hok as [Hback H0].
  exists text. split; [reflexivity|].
  split; [apply String.eqb_eq; exact Hback|].
  split; intros ->.
  - apply String.eqb_eq. exact H0.
  - apply String.eqb_eq. exact H12.
Qed.

(** Five past midnight. *)
Lemma am_pm_round_trip_witness :
  (0 <= 0 <= 23)%Z /\ (0 <= 5 <= 59)%Z
  /\ exists text,
       Toolkit.convert_to_am_pm (hh_mm 0 5) = inr text
       /\ Agent.extracted_time text = hh_mm 0 5.
Proof.
  assert (Hh : (0 <= 0 <= 23)%Z) by lia.
  assert (Hm : (0 <= 5 <= 59)%Z) by lia.
  split; [exact Hh|]. split; [exact Hm|].
  destruct (am_pm_round_trip 0 5 Hh Hm) as (text & Hc & Hx & _).
  exists text. split; assumption.
Defined.

End TimeSpec.


(* ===================================================================== *)
(** ** Properties of the slot-store tools                                 *)
(* ===================================================================== *)

Module ToolkitSpec.
Import Toolkit Formats ToolkitSamples.

Lemma is_empty_filter_true {A : Type} (p : A -> bool) (l : list A) :
  is_empty (filter p l) = true <-> forall x, In x l -> p x = false.
Proof.
  unfold is_empty. induction l as [|a l IH]; cbn.
  - split; [intros _ x [] | reflexivity].
  - destruct (p a) eqn:Hp; cbn.
    + split; [discriminate|]. intros H. rewrite (H a) in Hp by (left; reflexivity).
      discriminate.
    + rewrite IH. split.
      * intros H x [<-|Hin]; [exact Hp | apply H; exact Hin].
      * intros H x Hin. apply H. right. exact Hin.
Qed.

Lemma is_empty_filter_false {A : Type} (p : A -> bool) (l : list A) :
  is_empty (filter p l) = false <-> exists x, In x l /\ p x = true.
Proof.
  split.
  - intros He. induction l as [|a l IH]; [discriminate|].
    cbn in He. destruct (p a) eqn:Hp.
    + exists a. split; [left; reflexivity | exact Hp].
    + destruct (IH He) as (x & Hin & Hx). exists x. split; [right|]; assumption.
  - intros (x & Hin & Hx). destruct (is_empty (filter p l)) eqn:He; [|reflexivity].
    rewrite is_empty_filter_true in He. rewrite (He x Hin) in Hx. discriminate.
Qed.

Lemma nth_error_assign (mask : Slot -> bool) (flag : bool) (patient : option Z)
    (df : DataFrame) (n : nat) (r : Slot) :
  nth_error df n = Some r ->
  nth_error (assign mask flag patient df) n =
  Some (if mask r
        then {| date_slot := date_slot r; specialization := specialization r;
                doctor_name := doctor_name r; is_available := flag;
                patient_to_attend := patient |}
        else r).
Proof.
  intros Hn. unfold assign. rewrite nth_error_map, Hn. reflexivity.
Qed.

Lemma assign_length (mask : Slot -> bool) (flag : bool) (patient : option Z)
    (df : DataFrame) :
  List.length (assign mask flag patient df) = List.length df.
Proof. unfold assign. apply length_map. Qed.

Lemma leaves_store_ret {A : Type} (a : A) : leaves_store (ret a).
Proof. intros w. reflexivity. Qed.

Lemma leaves_store_enter (tool : string) : leaves_store (enter tool).
Proof. intros w. reflexivity. Qed.

Lemma leaves_store_read_csv : leaves_store read_csv.
Proof. intros w. reflexivity. Qed.

Lemma leaves_store_bind {A B : Type} (m : M A) (f : A -> M B) :
  leaves_store m -> (forall a, leaves_store (f a)) -> leaves_store (bind m f).
Proof.
  intros Hm Hf w. unfold after, bind.
  specialize (Hm w). unfold after in Hm.
  destruct (m w) as [a w'] eqn:Hmw. cbn in Hm.
  specialize (Hf a w'). unfold after in Hf. rewrite Hf. exact Hm.
Qed.

Lemma booking_of_slot_of (doctor : Doctor) (date : string) (id : Z) (r : Slot) :
  booking_of doctor date id r = slot_of doctor date r && patient_is id r.
Proof.
  unfold booking_of, slot_of.
  destruct (String.eqb (date_slot r) date), (patient_is id r),
    (String.eqb (doctor_name r) (doctor_str doctor)); reflexivity.
Qed.

Lemma patient_is_true (id : Z) (r : Slot) :
  patient_is id r = true <-> patient_to_attend r = Some id.
Proof.
  unfold patient_is. destruct (patient_to_attend r) as [p|].
  - rewrite Z.eqb_eq. split; [intros ->; reflexivity | intros [= ->]; reflexivity].
  - split; discriminate.
Qed.

Lemma patient_is_false (id : Z) (r : Slot) :
  patient_to_attend r <> Some id -> patient_is id r = false.
Proof.
  intros Hne. destruct (patient_is id r) eqn:Hp; [|reflexivity].
  apply patient_is_true in Hp. contradiction.
Qed.

Lemma first_char_differs (a b : string) (x y : ascii) :
  x <> y -> String x a <> String y b.
Proof. intros Hne Heq. injection Heq as Hxy _. contradiction. Qed.

Lemma no_appointment_found_not_cancelled (doctor : Doctor) (date : string) (id : Z) :
  no_appointment_found doctor date id <> cancelled doctor date id.
Proof. apply first_char_differs. discriminate. Qed.

Lemma no_slot_exists_not_booked (doctor : Doctor) (date : string) (id : Z) :
  no_slot_exists doctor date <> booked doctor date id.
Proof. apply first_char_differs. discriminate. Qed.

Lemma already_booked_not_booked (doctor : Doctor) (date : string) (id : Z) :
  already_booked doctor date <> booked doctor date id.
Proof. apply first_char_differs. discriminate. Qed.

Lemma contains_no_appointment_found (doctor : Doctor) (date : string) (id : Z) :
  contains "No appointment found" (no_appointment_found doctor date id) = true.
Proof. reflexivity. Qed.

Lemma has_char_app (c : ascii) (a b : string) :
  has_char c (a ++ b) = has_char c a || has_char c b.
Proof.
  unfold has_char. induction a as [|x a IH]; cbn; [reflexivity|].
  rewrite IH. apply orb_assoc.
Qed.

Lemma prefix_first (c : ascii) (sub s : string) :
  prefix (String c sub) s = true -> has_char c s = true.
Proof.
  destruct s as [|x s]; cbn.
  - discriminate.
  - destruct (ascii_dec c x) as [<-|Hne]; [|discriminate].
    intros _. unfold has_char. cbn. rewrite Ascii.eqb_refl. reflexivity.
Qed.

Lemma contains_first (c : ascii) (sub s : string) :
  contains (String c sub) s = true -> has_char c s = true.
Proof.
  induction s as [|x s IH].
  - cbn. discriminate.
  - intros Hc. cbn [contains] in Hc. apply orb_true_iff in Hc.
    destruct Hc as [Hp | Hc]; [exact (prefix_first c sub _ Hp)|].
    unfold has_char in *. cbn. rewrite (IH Hc). apply orb_true_r.
Qed.

Lemma digit_is_not_N (c : ascii) :
  is_digit c = true -> Ascii.eqb "N" c = false.
Proof.
  destruct c as [[] [] [] [] [] [] [] []]; cbn; intros H;
    first [reflexivity | discriminate].
Qed.

Lemma no_N_in_uint (u : Decimal.uint) :
  has_char "N" (NilEmpty.string_of_uint u) = false.
Proof. induction u; cbn; try reflexivity; exact IHu. Qed.

Lemma no_N_in_str (n : Z) : has_char "N" (str n) = false.
Proof.
  unfold str, NilZero.string_of_int, NilZero.string_of_uint.
  destruct (Z.to_int n) as [u|u]; destruct u; cbn;
    first [reflexivity | apply no_N_in_uint].
Qed.

Lemma no_N_in_doctor (doctor : Doctor) :
  has_char "N" (title (doctor_str doctor)) = false.
Proof. destruct doctor; reflexivity. Qed.

Lemma no_N_in_date_time (d : string) :
  date_time_shape d = true -> has_char "N" d = false.
Proof.
  unfold date_time_shape, has_char.
  destruct (list_ascii_of_string d) as [|c l]; [discriminate|].
  do 15 (destruct l as [|? l]; [discriminate|]).
  destruct l; [|discriminate].
  cbn [forallb existsb]. rewrite !andb_true_iff.
  intros H. decompose [and] H. clear H.
  repeat match goal with
         | H : is_digit ?c = true |- _ =>
             rewrite (digit_is_not_N c H); clear H
         | H : Ascii.eqb ?c _ = true |- _ =>
             apply Ascii.eqb_eq in H; subst c
         end.
  reflexivity.
Qed.

(** The success text of a cancel never reads as a failed one. *)
Lemma not_found_not_in_cancelled (doctor : Doctor) (date : string) (id : Z) :
  date_time_shape date = true ->
  contains "No appointment found" (cancelled doctor date id) = false.
Proof.
  intros Hshape.
  destruct (contains "No appointment found" (cancelled doctor date id)) eqn:Hc;
    [|reflexivity].
  apply contains_first in Hc. unfold cancelled in Hc.
  rewrite !has_char_app in Hc.
  rewrite no_N_in_str, no_N_in_doctor, (no_N_in_date_time date Hshape) in Hc.
  discriminate.
Qed.

(** Walks a tool body built from [ret], [enter], [read_csv], [bind] and
    case distinctions. *)
Ltac store_frame :=
  repeat first
    [ apply leaves_store_ret
    | apply leaves_store_enter
    | apply leaves_store_read_csv
    | apply leaves_store_bind; [| intros ?]
    | progress cbv zeta
    | match goal with
      | |- leaves_store (if ?b then _ else _) => destruct b
      | |- leaves_store (match ?x with _ => _ end) => destruct x
      end ].

Section Claims.
Context {E : Externals}.

Lemma invalid_input_one (date : string) (id : Z) :
  DateTimeModel date = true -> IdentificationNumberModel id = true ->
  invalid_input [date] id = None.
Proof.
  intros Hd Hi. unfold invalid_input. cbn [filter]. rewrite Hd, Hi. reflexivity.
Qed.

Lemma invalid_input_two (old_date new_date : string) (id : Z) :
  DateTimeModel old_date = true -> DateTimeModel new_date = true ->
  IdentificationNumberModel id = true ->
  invalid_input [old_date; new_date] id = None.
Proof.
  intros Ho Hn Hi. unfold invalid_input. cbn [filter].
  rewrite Ho, Hn, Hi. reflexivity.
Qed.

(** [set_appointment] on valid arguments and an existing file. *)
Lemma set_appointment_run (w : World) (df : DataFrame)
    (date : string) (id : Z) (doctor : Doctor) :
  csv w = Some df ->
  DateTimeModel date = true -> IdentificationNumberModel id = true ->
  set_appointment date id doctor w =
  if is_empty (filter (free_slot_of doctor date) df) then
    (if is_empty (filter (slot_of doctor date) df)
     then no_slot_exists doctor date
     else already_booked doctor date,
     noted "set_appointment" w)
  else
    (booked doctor date id,
     stored (assign (free_slot_of doctor date) false (Some id) df)
            (noted "set_appointment" w)).
Proof.
  intros Hw Hd Hi. unfold set_appointment, bind, enter, read_csv.
  rewrite (invalid_input_one date id Hd Hi). cbn [csv noted]. rewrite Hw.
  destruct (is_empty (filter (free_slot_of doctor date) df)).
  - destruct (is_empty (filter (slot_of doctor date) df)); reflexivity.
  - reflexivity.
Qed.

(** [cancel_appointment] on valid arguments and an existing file. *)
Lemma cancel_appointment_run (w : World) (df : DataFrame)
    (date : string) (id : Z) (doctor : Doctor) :
  csv w = Some df ->
  DateTimeModel date = true -> IdentificationNumberModel id = true ->
  cancel_appointment date id doctor w =
  if is_empty (filter (booking_of doctor date id) df) then
    (no_appointment_found doctor date id, noted "cancel_appointment" w)
  else
    (cancelled doctor date id,
     stored (assign (booking_of doctor date id) true None df)
            (noted "cancel_appointment" w)).
Proof.
  intros Hw Hd Hi. unfold cancel_appointment, bind, enter, read_csv.
  rewrite (invalid_input_one date id Hd Hi). cbn [csv noted]. rewrite Hw.
  destruct (is_empty (filter (booking_of doctor date id) df)); reflexivity.
Qed.

(** C9.  Neither availability query rewrites the slot-store file: after
    [check_availability_by_doctor] and after
    [check_availability_by_specialization] the file holds what it held
    before, for every date, name, specialization and store, on every
    branch. *)
Theorem availability_queries_leave_store
    (desired_date doctor : string) (spec : Specialization) (w : World) :
  csv (after (check_availability_by_doctor desired_date doctor) w) = csv w
  /\ csv (after (check_availability_by_specialization desired_date spec) w)
     = csv w.
Proof.
  split.
  - revert w. change (leaves_store (check_availability_by_doctor desired_date doctor)).
    unfold check_availability_by_doctor. store_frame.
  - revert w.
    change (leaves_store (check_availability_by_specialization desired_date spec)).
    unfold check_availability_by_specialization. store_frame.
Qed.

Lemma slot_of_assign (doctor : Doctor) (date : string) (mask : Slot -> bool)
    (flag : bool) (patient : option Z) (r : Slot) :
  slot_of doctor date
    (if mask r
     then {| date_slot := date_slot r; specialization := specialization r;
             doctor_name := doctor_name r; is_available := flag;
             patient_to_attend := patient |}
     else r)
  = slot_of doctor date r.
Proof. destruct (mask r); reflexivity. Qed.

(** C5.  [set_appointment] on valid arguments.  If some row has the
    doctor and date-time and is available, the call answers with the
    success text and rewrites the file so that every such row is
    unavailable and assigned to the requested id while all other rows, and
    the number of rows, stay as they were; a second identical call then
    answers "already booked" and leaves the file alone.  If rows with the
    doctor and date-time exist but none is available the call answers
    "already booked", and if no such row exists it answers that no slot
    exists; in both cases the file is unchanged. *)
Theorem set_appointment_spec (w : World) (df : DataFrame)
    (date : string) (id : Z) (doctor : Doctor) :
  csv w = Some df ->
  DateTimeModel date = true -> IdentificationNumberModel id = true ->
  let call := set_appointment date id doctor in
  ((exists r, In r df /\ slot_of doctor date r = true /\ is_available r = true) ->
   result call w = booked doctor date id
   /\ (exists df',
         csv (after call w) = Some df'
         /\ List.length df' = List.length df
         /\ forall n r, nth_error df n = Some r ->
            exists r', nth_error df' n = Some r'
              /\ (slot_of doctor date r = true -> is_available r = true ->
                  date_slot r' = date_slot r
                  /\ specialization r' = specialization r
                  /\ doctor_name r' = doctor_name r
                  /\ is_available r' = false
                  /\ patient_to_attend r' = Some id)
              /\ (slot_of doctor date r = false \/ is_available r = false ->
                  r' = r))
   /\ result call (after call w) = already_booked doctor date
   /\ csv (after call (after call w)) = csv (after call w))
  /\ ((exists r, In r df /\ slot_of doctor date r = true) ->
      (forall r, In r df -> slot_of doctor date r = true ->
                 is_available r = false) ->
      result call w = already_booked doctor date
      /\ csv (after call w) = csv w)
  /\ ((forall r, In r df -> slot_of doctor date r = false) ->
      result call w = no_slot_exists doctor date
      /\ csv (after call w) = csv w).
Proof.
  intros Hw Hd Hi call. unfold call, result, after.
  rewrite (set_appointment_run w df date id doctor Hw Hd Hi).
  split; [|split].
  - intros (r0 & Hin0 & Hkey0 & Hfree0).
    assert (Hfree : is_empty (filter (free_slot_of doctor date) df) = false).
    { apply is_empty_filter_false. exists r0. split; [exact Hin0|].
      unfold free_slot_of. rewrite Hkey0, Hfree0. reflexivity. }
    rewrite Hfree. cbn [fst snd].
    split; [reflexivity|]. split.
    + exists (assign (free_slot_of doctor date) false (Some id) df).
      split; [reflexivity|]. split; [apply assign_length|].
      intros n r Hn. eexists. split; [apply nth_error_assign; exact Hn|].
      unfold free_slot_of. split.
      * intros -> ->. cbn. repeat split.
      * intros [-> | ->]; [reflexivity | rewrite andb_false_r; reflexivity].
    + set (df' := assign (free_slot_of doctor date) false (Some id) df).
      rewrite (set_appointment_run (stored df' (noted "set_appointment" w))
                 df' date id doctor eq_refl Hd Hi).
      assert (Hnone : is_empty (filter (free_slot_of doctor date) df') = true).
      { apply is_empty_filter_true. intros r' Hin'. unfold df', assign in Hin'.
        apply in_map_iff in Hin'. destruct Hin' as (r & <- & _).
        destruct (free_slot_of doctor date r) eqn:Hm.
        - unfold free_slot_of. cbn. apply andb_false_r.
        - exact Hm. }
      assert (Hsome : is_empty (filter (slot_of doctor date) df') = false).
      { apply is_empty_filter_false. eexists. split.
        - unfold df', assign. apply in_map. exact Hin0.
        - rewrite slot_of_assign. exact Hkey0. }
      rewrite Hnone, Hsome. split; reflexivity.
  - intros (r0 & Hin0 & Hkey0) Hall.
    assert (Hnone : is_empty (filter (free_slot_of doctor date) df) = true).
    { apply is_empty_filter_true. intros r Hin. unfold free_slot_of.
      destruct (slot_of doctor date r) eqn:Hk; [|reflexivity].
      rewrite (Hall r Hin Hk). reflexivity. }
    assert (Hsome : is_empty (filter (slot_of doctor date) df) = false).
    { apply is_empty_filter_false. exists r0. split; assumption. }
    rewrite Hnone, Hsome. split; reflexivity.
  - intros Hall.
    assert (Hnone : is_empty (filter (free_slot_of doctor date) df) = true).
    { apply is_empty_filter_true. intros r Hin. unfold free_slot_of.
      rewrite (Hall r Hin). reflexivity. }
    assert (Hno : is_empty (filter (slot_of doctor date) df) = true).
    { apply is_empty_filter_true. exact Hall. }
    rewrite Hnone, Hno. split; reflexivity.
Qed.

(** C6.  [cancel_appointment] on valid arguments.  If some row has the
    doctor and date-time and is assigned to the given patient id, the call
    answers with the success text and rewrites the file so that every such
    row is available with no patient while all other rows, and the number
    of rows, stay as they were.  Otherwise (no row with that doctor and
    date-time, or none of them assigned to that id, unassigned rows
    included) the call answers "No appointment found" and the file is
    unchanged. *)
Theorem cancel_appointment_spec (w : World) (df : DataFrame)
    (date : string) (id : Z) (doctor : Doctor) :
  csv w = Some df ->
  DateTimeModel date = true -> IdentificationNumberModel id = true ->
  let call := cancel_appointment date id doctor in
  ((exists r, In r df /\ slot_of doctor date r = true
              /\ patient_to_attend r = Some id) ->
   result call w = cancelled doctor date id
   /\ exists df',
        csv (after call w) = Some df'
        /\ List.length df' = List.length df
        /\ forall n r, nth_error df n = Some r ->
           exists r', nth_error df' n = Some r'
             /\ (slot_of doctor date r = true -> patient_to_attend r = Some id ->
                 date_slot r' = date_slot r
                 /\ specialization r' = specialization r
                 /\ doctor_name r' = doctor_name r
                 /\ is_available r' = true
                 /\ patient_to_attend r' = None)
             /\ (slot_of doctor date r = false \/ patient_to_attend r <> Some id ->
                 r' = r))
  /\ ((forall r, In r df -> slot_of doctor date r = true ->
                 patient_to_attend r <> Some id) ->
      result call w = no_appointment_found doctor date id
      /\ csv (after call w) = csv w).
Proof.
  intros Hw Hd Hi call. unfold call, result, after.
  rewrite (cancel_appointment_run w df date id doctor Hw Hd Hi).
  split.
  - intros (r0 & Hin0 & Hkey0 & Hpat0).
    assert (Hsome : is_empty (filter (booking_of doctor date id) df) = false).
    { apply is_empty_filter_false. exists r0. split; [exact Hin0|].
      rewrite booking_of_slot_of, Hkey0. unfold patient_is. rewrite Hpat0.
      cbn. apply Z.eqb_refl. }
    rewrite Hsome. cbn [fst snd]. split; [reflexivity|].
    exists (assign (booking_of doctor date id) true None df).
    split; [reflexivity|]. split; [apply assign_length|].
    intros n r Hn. eexists. split; [apply nth_error_assign; exact Hn|].
    rewrite booking_of_slot_of. split.
    + intros -> Hp. unfold patient_is. rewrite Hp, Z.eqb_refl.
      cbn. repeat split.
    + intros [-> | Hp]; [reflexivity|].
      rewrite (patient_is_false id r Hp), andb_false_r. reflexivity.
  - intros Hall.
    assert (Hnone : is_empty (filter (booking_of doctor date id) df) = true).
    { apply is_empty_filter_true. intros r Hin. rewrite booking_of_slot_of.
      destruct (slot_of doctor date r) eqn:Hk; [|reflexivity].
      rewrite (patient_is_false id r (Hall r Hin Hk)). reflexivity. }
    rewrite Hnone. split; reflexivity.
Qed.

(** One row through [set_appointment] and then [cancel_appointment]. *)
Lemma round_trip_row (doctor : Doctor) (date : string) (id : Z) (r : Slot) :
  slot_of doctor date r = false
  \/ (is_available r = true /\ patient_to_attend r = None) ->
  let booked_row :=
    if free_slot_of doctor date r
    then {| date_slot := date_slot r; specialization := specialization r;
            doctor_name := doctor_name r; is_available := false;
            patient_to_attend := Some id |}
    else r in
  (if booking_of doctor date id booked_row
   then {| date_slot := date_slot booked_row;
           specialization := specialization booked_row;
           doctor_name := doctor_name booked_row; is_available := true;
           patient_to_attend := None |}
   else booked_row) = r.
Proof.
  intros Hr booked_row. unfold booked_row, free_slot_of.
  destruct (slot_of doctor date r) eqn:Hk.
  - destruct Hr as [Hr | [Hfree Hnone]]; [discriminate|].
    rewrite Hfree. cbn [andb].
    rewrite booking_of_slot_of.
    rewrite (slot_of_assign doctor date (fun _ => true) false (Some id) r), Hk.
    unfold patient_is. cbn. rewrite Z.eqb_refl.
    destruct r; cbn in *; subst; reflexivity.
  - cbn [andb]. rewrite booking_of_slot_of, Hk. reflexivity.
Qed.

(** C8.  On a store with an available, unassigned row for the doctor and
    date-time, [set_appointment] followed by [cancel_appointment] with the
    same doctor, date-time and patient id both succeed, and every such row
    is afterwards what it was before, as is every row of any other doctor
    or date-time; the number of rows is kept.  When all rows of that doctor
    and date-time are available and unassigned (in particular when the key
    names one row) the file ends up identical to the one before. *)
Theorem set_then_cancel_round_trip (w : World) (df : DataFrame)
    (date : string) (id : Z) (doctor : Doctor) :
  csv w = Some df ->
  DateTimeModel date = true -> IdentificationNumberModel id = true ->
  (exists r, In r df /\ slot_of doctor date r = true
             /\ is_available r = true /\ patient_to_attend r = None) ->
  let set := set_appointment date id doctor in
  let cancel := cancel_appointment date id doctor in
  result set w = booked doctor date id
  /\ result cancel (after set w) = cancelled doctor date id
  /\ exists df2,
       csv (after cancel (after set w)) = Some df2
       /\ List.length df2 = List.length df
       /\ (forall n r, nth_error df n = Some r ->
             slot_of doctor date r = true -> is_available r = true ->
             patient_to_attend r = None ->
             nth_error df2 n = Some r)
       /\ (forall n r, nth_error df n = Some r ->
             slot_of doctor date r = false ->
             nth_error df2 n = Some r)
       /\ ((forall r, In r df -> slot_of doctor date r = true ->
              is_available r = true /\ patient_to_attend r = None) ->
           df2 = df).
Proof.
  intros Hw Hd Hi (r0 & Hin0 & Hkey0 & Hfree0 & Hnone0) set cancel.
  unfold set, cancel, result, after.
  rewrite (set_appointment_run w df date id doctor Hw Hd Hi).
  assert (Hfree : is_empty (filter (free_slot_of doctor date) df) = false).
  { apply is_empty_filter_false. exists r0. split; [exact Hin0|].
    unfold free_slot_of. rewrite Hkey0, Hfree0. reflexivity. }
  rewrite Hfree. cbn [fst snd].
  set (df1 := assign (free_slot_of doctor date) false (Some id) df).
  rewrite (cancel_appointment_run (stored df1 (noted "set_appointment" w))
             df1 date id doctor eq_refl Hd Hi).
  assert (Hsome : is_empty (filter (booking_of doctor date id) df1) = false).
  { apply is_empty_filter_false. eexists. split.
    - unfold df1, assign. apply in_map. exact Hin0.
    - cbn beta. unfold free_slot_of. rewrite Hkey0, Hfree0. cbn [andb].
      rewrite booking_of_slot_of.
      rewrite (slot_of_assign doctor date (fun _ => true) false (Some id) r0).
      rewrite Hkey0. unfold patient_is. cbn. apply Z.eqb_refl. }
  rewrite Hsome. cbn [fst snd].
  split; [reflexivity|]. split; [reflexivity|].
  exists (assign (booking_of doctor date id) true None df1).
  split; [reflexivity|].
  split; [unfold df1; rewrite !assign_length; reflexivity|].
  assert (Hrow : forall n r, nth_error df n = Some r ->
            slot_of doctor date r = false
            \/ (is_available r = true /\ patient_to_attend r = None) ->
            nth_error (assign (booking_of doctor date id) true None df1) n
            = Some r).
  { intros n r Hn Hr.
    rewrite (nth_error_assign _ _ _ df1 n _
               (nth_error_assign _ _ _ df n r Hn)).
    f_equal. apply (round_trip_row doctor date id r Hr). }
  split; [|split].
  - intros n r Hn _ Ha Hp. apply (Hrow n r Hn). right. split; assumption.
  - intros n r Hn Hk. apply (Hrow n r Hn). left. exact Hk.
  - intros Hall. unfold df1, assign. rewrite map_map.
    rewrite <- (map_id df) at 2. apply map_ext_in. intros r Hin.
    apply (round_trip_row doctor date id r).
    destruct (slot_of doctor date r) eqn:Hk; [right | left; reflexivity].
    apply (Hall r Hin Hk).
Qed.

(** [reschedule_appointment] on valid arguments and an existing file. *)
Lemma reschedule_appointment_run (w : World) (df : DataFrame)
    (old_date new_date : string) (id : Z) (doctor : Doctor) :
  csv w = Some df ->
  DateTimeModel old_date = true -> DateTimeModel new_date = true ->
  IdentificationNumberModel id = true ->
  reschedule_appointment old_date new_date id doctor w =
  if is_empty (filter (free_slot_of doctor new_date) df) then
    (not_available_at doctor new_date, noted "reschedule_appointment" w)
  else
    let (cancel_result, w2) :=
      cancel_appointment old_date id doctor (noted "reschedule_appointment" w) in
    if contains "No appointment found" cancel_result then (cancel_result, w2)
    else
      let (set_result, w3) := set_appointment new_date id doctor w2 in
      (if contains "successfully booked" set_result
       then rescheduled doctor old_date new_date
       else set_result, w3).
Proof.
  intros Hw Ho Hn Hi.
  unfold reschedule_appointment, bind, enter, read_csv.
  rewrite (invalid_input_two old_date new_date id Ho Hn Hi).
  cbn [csv noted]. rewrite Hw.
  rewrite (filter_ext _ (free_slot_of doctor new_date)).
  2:{ intros r. unfold free_slot_of, slot_of.
      destruct (String.eqb (date_slot r) new_date), (is_available r),
        (String.eqb (doctor_name r) (doctor_str doctor)); reflexivity. }
  destruct (is_empty (filter (free_slot_of doctor new_date) df)); [reflexivity|].
  destruct (cancel_appointment old_date id doctor _) as [cancel_result w2].
  destruct (contains "No appointment found" cancel_result); [reflexivity|].
  destruct (set_appointment new_date id doctor w2) as [set_result w3].
  destruct (contains "successfully booked" set_result); reflexivity.
Qed.

(** The row-wise reason why a cancel and a set on one and the same slot
    give back a store in which that slot had no free row. *)
Lemma cancel_then_set_row (doctor : Doctor) (date : string) (id : Z) (r : Slot) :
  free_slot_of doctor date r = false ->
  let freed :=
    if booking_of doctor date id r
    then {| date_slot := date_slot r; specialization := specialization r;
            doctor_name := doctor_name r; is_available := true;
            patient_to_attend := None |}
    else r in
  (if free_slot_of doctor date freed
   then {| date_slot := date_slot freed; specialization := specialization freed;
           doctor_name := doctor_name freed; is_available := false;
           patient_to_attend := Some id |}
   else freed) = r.
Proof.
  intros Hfree freed. unfold freed.
  rewrite booking_of_slot_of.
  destruct (slot_of doctor date r) eqn:Hk; cbn [andb].
  - unfold free_slot_of in Hfree. rewrite Hk in Hfree. cbn [andb] in Hfree.
    destruct (patient_is id r) eqn:Hp.
    + unfold free_slot_of.
      rewrite (slot_of_assign doctor date (fun _ => true) true None r), Hk.
      cbn. apply patient_is_true in Hp.
      destruct r; cbn in *; subst; reflexivity.
    + unfold free_slot_of. rewrite Hk, Hfree. reflexivity.
  - rewrite Hfree. reflexivity.
Qed.

(** C7, amended.  [reschedule_appointment] on valid arguments.  Whenever
    [cancel_appointment] of the old slot and then [set_appointment] of the
    new one both succeed, the reschedule leaves the file that this cancel
    followed by this set leave.  Whenever [cancel_appointment] of the old
    slot finds no appointment, the reschedule leaves the file unchanged and
    never enters [set_appointment]: if the new slot has a free row it
    enters [cancel_appointment] and returns its "No appointment found"
    text; if the new slot has no free row it enters neither tool and
    returns "not available at" the new time. *)
Theorem reschedule_appointment_spec (w : World) (df : DataFrame)
    (old_date new_date : string) (id : Z) (doctor : Doctor) :
  csv w = Some df ->
  DateTimeModel old_date = true -> DateTimeModel new_date = true ->
  IdentificationNumberModel id = true ->
  (forall d, DateTimeModel d = true -> date_time_shape d = true) ->
  let cancel := cancel_appointment old_date id doctor in
  let set := set_appointment new_date id doctor in
  let call := reschedule_appointment old_date new_date id doctor in
  (result cancel w = cancelled doctor old_date id ->
   result set (after cancel w) = booked doctor new_date id ->
   csv (after call w) = csv (after set (after cancel w)))
  /\ (result cancel w = no_appointment_found doctor old_date id ->
      csv (after call w) = csv w
      /\ ((exists r, In r df /\ slot_of doctor new_date r = true
                     /\ is_available r = true) ->
          result call w = no_appointment_found doctor old_date id
          /\ entered (after call w) =
             (entered w ++ ["reschedule_appointment"; "cancel_appointment"])%list)
      /\ ((forall r, In r df -> slot_of doctor new_date r = true ->
                     is_available r = false) ->
          result call w = not_available_at doctor new_date
          /\ entered (after call w) =
             (entered w ++ ["reschedule_appointment"])%list)).
Proof.
  intros Hw Ho Hn Hi Hshape cancel set call.
  unfold cancel, set, call, result, after.
  rewrite (reschedule_appointment_run w df old_date new_date id doctor Hw Ho Hn Hi).
  rewrite (cancel_appointment_run w df old_date id doctor Hw Ho Hi).
  rewrite (cancel_appointment_run (noted "reschedule_appointment" w) df
             old_date id doctor Hw Ho Hi).
  destruct (is_empty (filter (booking_of doctor old_date id) df)) eqn:Hbooking;
    cbn [fst snd].
  - (* the old slot holds no appointment of this patient *)
    split.
    { intros Habs. apply no_appointment_found_not_cancelled in Habs. contradiction. }
    intros _. rewrite contains_no_appointment_found.
    destruct (is_empty (filter (free_slot_of doctor new_date) df)) eqn:Hnew;
      cbn [fst snd csv noted entered].
    + split; [reflexivity|]. split.
      * intros (r & Hin & Hk & Ha).
        rewrite is_empty_filter_true in Hnew. specialize (Hnew r Hin).
        unfold free_slot_of in Hnew. rewrite Hk, Ha in Hnew. discriminate.
      * intros _. split; reflexivity.
    + split; [reflexivity|]. split.
      * intros _. split; [reflexivity|]. rewrite <- app_assoc. reflexivity.
      * intros Hall. apply is_empty_filter_false in Hnew.
        destruct Hnew as (r & Hin & Hr). unfold free_slot_of in Hr.
        apply andb_true_iff in Hr. destruct Hr as [Hk Ha].
        rewrite (Hall r Hin Hk) in Ha. discriminate.
  - (* the cancel succeeds *)
    split; [|intros Habs; symmetry in Habs;
             apply no_appointment_found_not_cancelled in Habs; contradiction].
    intros _.
    set (df1 := assign (booking_of doctor old_date id) true None df).
    rewrite (set_appointment_run
               (stored df1 (noted "cancel_appointment" w)) df1
               new_date id doctor eq_refl Hn Hi).
    rewrite (not_found_not_in_cancelled doctor old_date id (Hshape _ Ho)).
    rewrite (set_appointment_run
               (stored df1 (noted "cancel_appointment"
                                  (noted "reschedule_appointment" w))) df1
               new_date id doctor eq_refl Hn Hi).
    destruct (is_empty (filter (free_slot_of doctor new_date) df1)) eqn:Hset;
      cbn [fst snd].
    { destruct (is_empty (filter (slot_of doctor new_date) df1));
        intros Habs; [apply no_slot_exists_not_booked in Habs
                     | apply already_booked_not_booked in Habs];
        contradiction. }
    intros _.
    destruct (is_empty (filter (free_slot_of doctor new_date) df)) eqn:Hnew;
      cbn [fst snd csv stored noted]; [|reflexivity].
    (* no free row at the new time before the cancel: old and new slot are
       the same, and cancel then set put the rows back *)
    rewrite Hw. f_equal.
    rewrite is_empty_filter_true in Hnew.
    apply is_empty_filter_false in Hset. destruct Hset as (r1 & Hin1 & Hfree1).
    unfold df1, assign in Hin1. apply in_map_iff in Hin1.
    destruct Hin1 as (r & <- & Hin).
    assert (Hsame : old_date = new_date).
    { destruct (booking_of doctor old_date id r) eqn:Hb.
      - rewrite booking_of_slot_of in Hb. apply andb_true_iff in Hb.
        destruct Hb as [Hk _].
        unfold free_slot_of in Hfree1. apply andb_true_iff in Hfree1.
        destruct Hfree1 as [Hk1 _].
        rewrite (slot_of_assign doctor new_date (fun _ => true) true None r) in Hk1.
        unfold slot_of in Hk, Hk1.
        apply andb_true_iff in Hk. apply andb_true_iff in Hk1.
        destruct Hk as [Hk _]. destruct Hk1 as [Hk1 _].
        apply String.eqb_eq in Hk. apply String.eqb_eq in Hk1. congruence.
      - rewrite (Hnew r Hin) in Hfree1. discriminate. }
    subst new_date. unfold df1, assign. rewrite map_map.
    rewrite <- (map_id df) at 1. apply map_ext_in. intros r' Hin'.
    symmetry. apply (cancel_then_set_row doctor old_date id r' (Hnew r' Hin')).
Qed.

End Claims.

(** The scenario of the specification: booking the seeded 20:00 slot of
    Emily Johnson for patient 1000082, twice. *)
Lemma set_appointment_spec_witness :
  let call := set_appointment (E := spec_externals)
                "08-08-2024 20:00" 1000082 emily_johnson in
  csv seeded = Some seeded_rows
  /\ DateTimeModel (Externals := spec_externals) "08-08-2024 20:00" = true
  /\ IdentificationNumberModel (Externals := spec_externals) 1000082 = true
  /\ result call seeded = booked emily_johnson "08-08-2024 20:00" 1000082
  /\ result call (after call seeded)
     = already_booked emily_johnson "08-08-2024 20:00".
Proof.
  intros call.
  split; [reflexivity|]. split; [reflexivity|]. split; [reflexivity|].
  destruct (proj1 (set_appointment_spec (E := spec_externals) seeded seeded_rows
                     "08-08-2024 20:00" 1000082 emily_johnson
                     eq_refl eq_refl eq_refl))
    as (Hfirst & _ & Hagain & _).
  - exists (slot "08-08-2024 20:00" "emily johnson" true None).
    split; [left; reflexivity|]. split; reflexivity.
  - split; [exact Hfirst | exact Hagain].
Defined.

(** Cancelling the booking of patient 1000082. *)
Lemma cancel_appointment_spec_witness :
  let call := cancel_appointment (E := spec_externals)
                "08-08-2024 20:00" 1000082 emily_johnson in
  csv with_booking = Some booked_rows
  /\ DateTimeModel (Externals := spec_externals) "08-08-2024 20:00" = true
  /\ IdentificationNumberModel (Externals := spec_externals) 1000082 = true
  /\ result call with_booking
     = cancelled emily_johnson "08-08-2024 20:00" 1000082.
Proof.
  intros call.
  split; [reflexivity|]. split; [reflexivity|]. split; [reflexivity|].
  refine (proj1 (proj1 (cancel_appointment_spec (E := spec_externals)
                          with_booking booked_rows
                          "08-08-2024 20:00" 1000082 emily_johnson
                          eq_refl eq_refl eq_refl) _)).
  exists (slot "08-08-2024 20:00" "emily johnson" false (Some 1000082%Z)).
  split; [left; reflexivity|]. split; reflexivity.
Defined.

Lemma spec_date_times_have_shape (d : string) :
  DateTimeModel (Externals := spec_externals) d = true ->
  date_time_shape d = true.
Proof. intros H. exact H. Defined.

(** Moving the booking of patient 1000082 from 08-08 20:00 to 09-08 10:30. *)
Lemma reschedule_appointment_spec_witness :
  let cancel := cancel_appointment (E := spec_externals)
                  "08-08-2024 20:00" 1000082 emily_johnson in
  let set := set_appointment (E := spec_externals)
               "09-08-2024 10:30" 1000082 emily_johnson in
  let call := reschedule_appointment (E := spec_externals)
                "08-08-2024 20:00" "09-08-2024 10:30" 1000082 emily_johnson in
  csv with_booking = Some booked_rows
  /\ DateTimeModel (Externals := spec_externals) "08-08-2024 20:00" = true
  /\ DateTimeModel (Externals := spec_externals) "09-08-2024 10:30" = true
  /\ IdentificationNumberModel (Externals := spec_externals) 1000082 = true
  /\ (forall d, DateTimeModel (Externals := spec_externals) d = true ->
                date_time_shape d = true)
  /\ result cancel with_booking
     = cancelled emily_johnson "08-08-2024 20:00" 1000082
  /\ result set (after cancel with_booking)
     = booked emily_johnson "09-08-2024 10:30" 1000082
  /\ csv (after call with_booking) = csv (after set (after cancel with_booking)).
Proof.
  intros cancel set call.
  split; [reflexivity|]. split; [reflexivity|]. split; [reflexivity|].
  split; [reflexivity|]. split; [exact spec_date_times_have_shape|].
  split; [reflexivity|]. split; [reflexivity|].
  exact (proj1 (reschedule_appointment_spec (E := spec_externals)
                  with_booking booked_rows
                  "08-08-2024 20:00" "09-08-2024 10:30" 1000082 emily_johnson
                  eq_refl eq_refl eq_refl eq_refl spec_date_times_have_shape)
               eq_refl eq_refl).
Defined.

(** C7 as stated fails.  John Doe's 09:30 slot is taken by someone else and
    patient 1000082 has no appointment with him at 20:00: the cancel of the
    old slot would find nothing, yet the reschedule to 09:30 answers that
    the doctor is not available at the new time, without entering
    [cancel_appointment]; the cancel failure is not what it reports. *)
Lemma reschedule_reports_new_slot_first :
  ~ (forall (w : World) (df : DataFrame) (old_date new_date : string)
            (id : Z) (doctor : Doctor),
       csv w = Some df ->
       DateTimeModel (Externals := spec_externals) old_date = true ->
       DateTimeModel (Externals := spec_externals) new_date = true ->
       IdentificationNumberModel (Externals := spec_externals) id = true ->
       result (cancel_appointment (E := spec_externals) old_date id doctor) w
       = no_appointment_found doctor old_date id ->
       csv (after (reschedule_appointment (E := spec_externals)
                     old_date new_date id doctor) w) = csv w
       /\ result (reschedule_appointment (E := spec_externals)
                    old_date new_date id doctor) w
          = no_appointment_found doctor old_date id).
Proof.
  intros Hclaim.
  destruct (Hclaim seeded seeded_rows "08-08-2024 20:00" "08-08-2024 09:30"
              1000082%Z john_doe eq_refl eq_refl eq_refl eq_refl eq_refl)
    as [_ Hreport].
  vm_compute in Hreport. discriminate.
Qed.

(** Booking and then cancelling the seeded 20:00 slot gives the seeded
    store back. *)
Lemma set_then_cancel_round_trip_witness :
  let set := set_appointment (E := spec_externals)
               "08-08-2024 20:00" 1000082 emily_johnson in
  let cancel := cancel_appointment (E := spec_externals)
                  "08-08-2024 20:00" 1000082 emily_johnson in
  csv seeded = Some seeded_rows
  /\ DateTimeModel (Externals := spec_externals) "08-08-2024 20:00" = true
  /\ IdentificationNumberModel (Externals := spec_externals) 1000082 = true
  /\ csv (after cancel (after set seeded)) = Some seeded_rows.
Proof.
  intros set cancel.
  split; [reflexivity|]. split; [reflexivity|]. split; [reflexivity|].
  destruct (set_then_cancel_round_trip (E := spec_externals) seeded seeded_rows
              "08-08-2024 20:00" 1000082 emily_johnson
              eq_refl eq_refl eq_refl)
    as (_ & _ & df2 & Hcsv & _ & _ & _ & Hsame).
  - exists (slot "08-08-2024 20:00" "emily johnson" true None).
    split; [left; reflexivity|]. repeat split.
  - rewrite <- Hsame; [exact Hcsv|].
    intros r [<- | [<- | [<- | []]]]; intros Hk;
      first [discriminate Hk | split; reflexivity].
Defined.

(** The query scenario of the specification: the seeded 20:00 slot of
    Emily Johnson is listed as 8:00 PM. *)
Example seeded_general_dentists :
  result (check_availability_by_specialization (E := spec_externals)
            "08-08-2024" general_dentist) seeded
  = "Available general dentist appointments on 08-08-2024:" ++ LF ++ LF
    ++ "Dr. Emily Johnson:" ++ LF ++ "8:00 PM".
Proof. reflexivity. Qed.

Example seeded_emily_johnson :
  result (check_availability_by_doctor (E := spec_externals)
            "08-08-2024" " Emily Johnson ") seeded
  = "Availability for Dr. Emily Johnson on 08-08-2024:" ++ LF
    ++ "Available slots: 20:00".
Proof. reflexivity. Qed.

(** A reschedule whose new slot does not exist enters no other tool. *)
Example reschedule_on_no_rows :
  reschedule_appointment (E := spec_externals)
    "08-08-2024 20:00" "09-08-2024 10:30" 1000082 emily_johnson no_rows
  = (not_available_at emily_johnson "09-08-2024 10:30",
     {| csv := Some []; entered := ["reschedule_appointment"] |}).
Proof. reflexivity. Qed.

(** A successful reschedule enters the cancel and then the set. *)
Example reschedule_with_booking :
  result (reschedule_appointment (E := spec_externals)
            "08-08-2024 20:00" "09-08-2024 10:30" 1000082 emily_johnson)
         with_booking
  = rescheduled emily_johnson "08-08-2024 20:00" "09-08-2024 10:30"
  /\ entered (after (reschedule_appointment (E := spec_externals)
                       "08-08-2024 20:00" "09-08-2024 10:30" 1000082
                       emily_johnson) with_booking)
     = ["reschedule_appointment"; "cancel_appointment"; "set_appointment"].
Proof. split; reflexivity. Qed.

(** A malformed date-time stops a booking tool before it reads the file. *)
Example set_with_bad_date :
  set_appointment (E := spec_externals) "8 august 8pm" 1000082 emily_johnson
    seeded
  = ("Invalid input: ValidationError",
     {| csv := Some seeded_rows; entered := ["set_appointment"] |}).
Proof. reflexivity. Qed.

End ToolkitSpec.


(* ===================================================================== *)
(** ** What every tool call keeps                                         *)
(* ===================================================================== *)

Module StoreSpec.
Import Toolkit Formats ToolkitSamples Store ToolkitSpec.

Lemma by_doctor_leaves_store {E : Externals} (desired_date doctor : string) :
  leaves_store (check_availability_by_doctor desired_date doctor).
Proof. unfold check_availability_by_doctor. store_frame. Qed.

Lemma by_specialization_leaves_store {E : Externals}
    (desired_date : string) (spec : Specialization) :
  leaves_store (check_availability_by_specialization desired_date spec).
Proof. unfold check_availability_by_specialization. store_frame. Qed.

Section Kept.
Context {E : Externals}.
Variable R : DataFrame -> DataFrame -> Prop.
Hypothesis R_refl : forall df, R df df.
Hypothesis R_trans : forall a b c, R a b -> R b c -> R a c.
Hypothesis R_assign :
  forall mask flag patient df,
    (flag = true /\ patient = None \/ flag = false /\ patient <> None) ->
    R df (assign mask flag patient df).

Lemma keeps_leaves_store {A : Type} (m : M A) : leaves_store m -> keeps R m.
Proof.
  intros Hm w. rewrite (Hm w). destruct (csv w); [apply R_refl | exact I].
Qed.

Lemma keeps_ret {A : Type} (a : A) : keeps R (ret a).
Proof. apply keeps_leaves_store, leaves_store_ret. Qed.

Lemma keeps_bind {A B : Type} (m : M A) (f : A -> M B) :
  keeps R m -> (forall a, keeps R (f a)) -> keeps R (bind m f).
Proof.
  intros Hm Hf w. unfold after, bind.
  specialize (Hm w). unfold after in Hm.
  destruct (m w) as [a w']. cbn [snd] in Hm.
  specialize (Hf a w'). unfold after in Hf.
  destruct (csv w) as [d0|], (csv w') as [d1|]; try contradiction;
    destruct (csv (snd (f a w'))) as [d2|]; try contradiction;
    [exact (R_trans _ _ _ Hm Hf) | exact I].
Qed.

Lemma keeps_set_appointment (date : string) (id : Z) (doctor : Doctor) :
  keeps R (set_appointment date id doctor).
Proof.
  intros w. unfold after, set_appointment, bind, enter, read_csv.
  destruct (invalid_input [date] id);
    [cbn; destruct (csv w); [apply R_refl | exact I]|].
  cbn [csv noted].
  destruct (csv w) as [df|] eqn:Hcsv; [|cbn; rewrite Hcsv; exact I].
  destruct (is_empty (filter (free_slot_of doctor date) df)).
  - destruct (is_empty (filter (slot_of doctor date) df));
      cbn; rewrite Hcsv; apply R_refl.
  - cbn. apply R_assign. right. split; [reflexivity | discriminate].
Qed.

Lemma keeps_cancel_appointment (date : string) (id : Z) (doctor : Doctor) :
  keeps R (cancel_appointment date id doctor).
Proof.
  intros w. unfold after, cancel_appointment, bind, enter, read_csv.
  destruct (invalid_input [date] id);
    [cbn; destruct (csv w); [apply R_refl | exact I]|].
  cbn [csv noted].
  destruct (csv w) as [df|] eqn:Hcsv; [|cbn; rewrite Hcsv; exact I].
  destruct (is_empty (filter (booking_of doctor date id) df)).
  - cbn; rewrite Hcsv; apply R_refl.
  - cbn. apply R_assign. left. split; reflexivity.
Qed.

Lemma keeps_reschedule_appointment
    (old_date new_date : string) (id : Z) (doctor : Doctor) :
  keeps R (reschedule_appointment old_date new_date id doctor).
Proof.
  unfold reschedule_appointment.
  apply keeps_bind; [apply keeps_leaves_store, leaves_store_enter | intros _].
  destruct (invalid_input [old_date; new_date] id); [apply keeps_ret|].
  apply keeps_bind; [apply keeps_leaves_store, leaves_store_read_csv|].
  intros [df|]; [|apply keeps_ret].
  cbv zeta. destruct (is_empty _); [apply keeps_ret|].
  apply keeps_bind; [apply keeps_cancel_appointment | intros cancel_result].
  destruct (contains _ cancel_result); [apply keeps_ret|].
  apply keeps_bind; [apply keeps_set_appointment | intros set_result].
  destruct (contains _ set_result); apply keeps_ret.
Qed.

(** Every tool call keeps a relation that is reflexive, transitive and
    holds across the two assignments of the booking tools. *)
Lemma keeps_call (c : ToolCall) : keeps R (call c).
Proof.
  destruct c; cbn [call].
  - apply keeps_leaves_store, by_doctor_leaves_store.
  - apply keeps_leaves_store, by_specialization_leaves_store.
  - apply keeps_set_appointment.
  - apply keeps_cancel_appointment.
  - apply keeps_reschedule_appointment.
Qed.

End Kept.

Lemma key_columns_assign (mask : Slot -> bool) (flag : bool)
    (patient : option Z) (df : DataFrame) :
  key_columns (assign mask flag patient df) = key_columns df.
Proof.
  unfold key_columns, assign. rewrite map_map. apply map_ext.
  intros r. destruct (mask r); reflexivity.
Qed.

Lemma coherent_assign (mask : Slot -> bool) (flag : bool)
    (patient : option Z) (df : DataFrame) :
  (flag = true /\ patient = None \/ flag = false /\ patient <> None) ->
  forallb coherent df = true ->
  forallb coherent (assign mask flag patient df) = true.
Proof.
  intros Hfp Hdf. rewrite forallb_forall in *. intros r' Hin.
  unfold assign in Hin. apply in_map_iff in Hin. destruct Hin as (r & <- & Hin).
  destruct (mask r); [|exact (Hdf r Hin)].
  unfold coherent. cbn.
  destruct Hfp as [[-> ->] | [-> Hp]]; [reflexivity|].
  destruct patient; [reflexivity | contradiction].
Qed.

(** X1.  No call of any of the five tools, whatever its arguments, creates
    or deletes the slot-store file, and none adds, removes, reorders or
    re-keys a row: date-time, specialization and doctor of every row stay
    as they are, row by row. *)
Theorem tool_calls_keep_slots {E : Externals} (c : ToolCall) (w : World) :
  (csv w = None -> csv (after (call c) w) = None)
  /\ (forall df, csv w = Some df ->
       exists df', csv (after (call c) w) = Some df'
                   /\ key_columns df' = key_columns df).
Proof.
  pose proof (keeps_call (fun a b => key_columns b = key_columns a)
                (fun df => eq_refl)
                (fun a b c Hab Hbc => eq_trans Hbc Hab)
                (fun mask flag patient df _ =>
                   key_columns_assign mask flag patient df)
                c w) as H.
  split.
  - intros Hw. rewrite Hw in H.
    destruct (csv (after (call c) w)); [contradiction | reflexivity].
  - intros df Hw. rewrite Hw in H.
    destruct (csv (after (call c) w)) as [df'|]; [|contradiction].
    exists df'. split; [reflexivity | exact H].
Qed.

(** X2.  If in every row availability and assignment agree (a row is
    available exactly when it has no patient), they still agree in every
    row after any tool call. *)
Theorem tool_calls_keep_rows_coherent {E : Externals} (c : ToolCall)
    (w : World) (df : DataFrame) :
  csv w = Some df ->
  forallb coherent df = true ->
  exists df', csv (after (call c) w) = Some df'
              /\ forallb coherent df' = true.
Proof.
  intros Hw Hdf.
  pose proof (keeps_call
                (fun a b => forallb coherent a = true ->
                            forallb coherent b = true)
                (fun df H => H)
                (fun a b c Hab Hbc H => Hbc (Hab H))
                (fun mask flag patient df Hfp =>
                   coherent_assign mask flag patient df Hfp)
                c w) as H.
  rewrite Hw in H.
  destruct (csv (after (call c) w)) as [df'|]; [|contradiction].
  exists df'. split; [reflexivity | exact (H Hdf)].
Qed.

Lemma tool_calls_keep_slots_witness :
  csv seeded = Some seeded_rows
  /\ exists df',
       csv (after (call (E := spec_externals)
                     (set "08-08-2024 20:00" 1000082 emily_johnson)) seeded)
       = Some df'
       /\ key_columns df' = key_columns seeded_rows.
Proof.
  split; [reflexivity|].
  exact (proj2 (tool_calls_keep_slots (E := spec_externals)
                  (set "08-08-2024 20:00" 1000082 emily_johnson) seeded)
               seeded_rows eq_refl).
Defined.

Lemma tool_calls_keep_rows_coherent_witness :
  csv with_booking = Some booked_rows
  /\ forallb coherent booked_rows = true
  /\ exists df',
       csv (after (call (E := spec_externals)
                     (reschedule "08-08-2024 20:00" "09-08-2024 10:30"
                                 1000082 emily_johnson)) with_booking)
       = Some df'
       /\ forallb coherent df' = true.
Proof.
  split; [reflexivity|]. split; [reflexivity|].
  exact (tool_calls_keep_rows_coherent (E := spec_externals)
           (reschedule "08-08-2024 20:00" "09-08-2024 10:30"
                       1000082 emily_johnson)
           with_booking booked_rows eq_refl eq_refl).
Defined.

End StoreSpec.


(* ===================================================================== *)
(** ** How the booking tools compose                                      *)
(* ===================================================================== *)

Module BookingSpec.
Import Toolkit Formats ToolkitSamples ToolkitSpec.

Lemma contains_successfully_booked (doctor : Doctor) (date : string) (id : Z) :
  contains "successfully booked" (booked doctor date id) = true.
Proof. reflexivity. Qed.

Lemma free_slot_survives_cancel (doctor doctor' : Doctor) (date date' : string)
    (id : Z) (df : DataFrame) (r : Slot) :
  In r df -> free_slot_of doctor date r = true ->
  exists r', In r' (assign (booking_of doctor' date' id) true None df)
             /\ free_slot_of doctor date r' = true.
Proof.
  intros Hin Hfree. eexists. split.
  - unfold assign. apply in_map. exact Hin.
  - cbn beta. destruct (booking_of doctor' date' id r); [|exact Hfree].
    unfold free_slot_of in *. apply andb_true_iff in Hfree.
    destruct Hfree as [Hk _].
    rewrite (slot_of_assign doctor date (fun _ => true) true None r), Hk.
    reflexivity.
Qed.

Section Claims.
Context {E : Externals}.

(** X3.  A reschedule that gets past its two checks cannot fail half-way:
    on valid arguments, when the new slot has an available row and the old
    slot holds an appointment of the patient, [reschedule_appointment]
    enters the cancel and then the set, the set succeeds, the answer is the
    "successfully rescheduled" text, and the file is the one left by the
    cancel of the old slot followed by the booking of the new one. *)
Theorem reschedule_appointment_succeeds (w : World) (df : DataFrame)
    (old_date new_date : string) (id : Z) (doctor : Doctor) :
  csv w = Some df ->
  DateTimeModel old_date = true -> DateTimeModel new_date = true ->
  IdentificationNumberModel id = true ->
  (forall d, DateTimeModel d = true -> date_time_shape d = true) ->
  (exists r, In r df /\ slot_of doctor new_date r = true
             /\ is_available r = true) ->
  (exists r, In r df /\ slot_of doctor old_date r = true
             /\ patient_to_attend r = Some id) ->
  let call := reschedule_appointment old_date new_date id doctor in
  result call w = rescheduled doctor old_date new_date
  /\ entered (after call w) =
     (entered w ++ ["reschedule_appointment"; "cancel_appointment";
                    "set_appointment"])%list
  /\ csv (after call w) =
     Some (assign (free_slot_of doctor new_date) false (Some id)
             (assign (booking_of doctor old_date id) true None df)).
Proof.
  intros Hw Ho Hn Hi Hshape (rn & Hinn & Hkn & Han) (ro & Hino & Hko & Hpo) call.
  unfold call, result, after.
  rewrite (reschedule_appointment_run w df old_date new_date id doctor Hw Ho Hn Hi).
  assert (Hfree : free_slot_of doctor new_date rn = true).
  { unfold free_slot_of. rewrite Hkn, Han. reflexivity. }
  assert (Hnew : is_empty (filter (free_slot_of doctor new_date) df) = false).
  { apply is_empty_filter_false. exists rn. split; assumption. }
  rewrite Hnew.
  rewrite (cancel_appointment_run (noted "reschedule_appointment" w) df
             old_date id doctor Hw Ho Hi).
  assert (Hold : is_empty (filter (booking_of doctor old_date id) df) = false).
  { apply is_empty_filter_false. exists ro. split; [exact Hino|].
    rewrite booking_of_slot_of, Hko. apply patient_is_true. exact Hpo. }
  rewrite Hold.
  rewrite (not_found_not_in_cancelled doctor old_date id (Hshape _ Ho)).
  set (df1 := assign (booking_of doctor old_date id) true None df).
  rewrite (set_appointment_run
             (stored df1 (noted "cancel_appointment"
                                (noted "reschedule_appointment" w))) df1
             new_date id doctor eq_refl Hn Hi).
  assert (Hset : is_empty (filter (free_slot_of doctor new_date) df1) = false).
  { apply is_empty_filter_false.
    exact (free_slot_survives_cancel doctor doctor new_date old_date id df rn
             Hinn Hfree). }
  rewrite Hset, contains_successfully_booked. cbn.
  split; [reflexivity|]. split; [|reflexivity].
  rewrite <- !app_assoc. reflexivity.
Qed.

(** X4.  Cancelling twice: whatever the first [cancel_appointment] did, an
    immediate second one with the same arguments finds no appointment and
    leaves the file as the first one left it. *)
Theorem cancel_appointment_twice (w : World) (df : DataFrame)
    (date : string) (id : Z) (doctor : Doctor) :
  csv w = Some df ->
  DateTimeModel date = true -> IdentificationNumberModel id = true ->
  let call := cancel_appointment date id doctor in
  result call (after call w) = no_appointment_found doctor date id
  /\ csv (after call (after call w)) = csv (after call w).
Proof.
  intros Hw Hd Hi call. unfold call, result, after.
  rewrite (cancel_appointment_run w df date id doctor Hw Hd Hi).
  destruct (is_empty (filter (booking_of doctor date id) df)) eqn:Hnone;
    cbn [fst snd].
  - rewrite (cancel_appointment_run (noted "cancel_appointment" w) df
               date id doctor Hw Hd Hi).
    rewrite Hnone. split; reflexivity.
  - set (df1 := assign (booking_of doctor date id) true None df).
    rewrite (cancel_appointment_run
               (stored df1 (noted "cancel_appointment" w)) df1
               date id doctor eq_refl Hd Hi).
    assert (Hgone : is_empty (filter (booking_of doctor date id) df1) = true).
    { apply is_empty_filter_true. intros r' Hin.
      unfold df1, assign in Hin. apply in_map_iff in Hin.
      destruct Hin as (r & <- & _).
      destruct (booking_of doctor date id r) eqn:Hb; [|exact Hb].
      rewrite booking_of_slot_of. unfold patient_is. cbn. apply andb_false_r. }
    rewrite Hgone. split; reflexivity.
Qed.

(** X5.  A patient cannot cancel what another patient booked: if no row of
    the slot is assigned to patient [other], then after [set_appointment]
    for a different patient [id] (successful or not) the
    [cancel_appointment] of [other] finds no appointment and leaves the
    file as the set left it. *)
Theorem cancel_by_another_patient (w : World) (df : DataFrame)
    (date : string) (id other : Z) (doctor : Doctor) :
  csv w = Some df ->
  DateTimeModel date = true ->
  IdentificationNumberModel id = true -> IdentificationNumberModel other = true ->
  id <> other ->
  (forall r, In r df -> slot_of doctor date r = true ->
             patient_to_attend r <> Some other) ->
  let booking := set_appointment date id doctor in
  let cancelling := cancel_appointment date other doctor in
  result cancelling (after booking w) = no_appointment_found doctor date other
  /\ csv (after cancelling (after booking w)) = csv (after booking w).
Proof.
  intros Hw Hd Hi Ho Hne Hfree booking cancelling.
  unfold booking, cancelling, result, after.
  rewrite (set_appointment_run w df date id doctor Hw Hd Hi).
  assert (Hnone : is_empty (filter (booking_of doctor date other) df) = true).
  { apply is_empty_filter_true. intros r Hin. rewrite booking_of_slot_of.
    destruct (slot_of doctor date r) eqn:Hk; [|reflexivity].
    apply patient_is_false. exact (Hfree r Hin Hk). }
  destruct (is_empty (filter (free_slot_of doctor date) df)); cbn [fst snd].
  - rewrite (cancel_appointment_run (noted "set_appointment" w) df
               date other doctor Hw Hd Ho).
    rewrite Hnone. split; reflexivity.
  - set (df1 := assign (free_slot_of doctor date) false (Some id) df).
    rewrite (cancel_appointment_run
               (stored df1 (noted "set_appointment" w)) df1
               date other doctor eq_refl Hd Ho).
    assert (Hstill : is_empty (filter (booking_of doctor date other) df1) = true).
    { apply is_empty_filter_true. intros r' Hin.
      unfold df1, assign in Hin. apply in_map_iff in Hin.
      destruct Hin as (r & <- & Hin).
      destruct (free_slot_of doctor date r) eqn:Hm.
      - rewrite booking_of_slot_of. unfold patient_is. cbn.
        apply Z.eqb_neq in Hne. rewrite Hne. apply andb_false_r.
      - rewrite is_empty_filter_true in Hnone. exact (Hnone r Hin). }
    rewrite Hstill. split; reflexivity.
Qed.

End Claims.

Lemma reschedule_appointment_succeeds_witness :
  let call := reschedule_appointment (E := spec_externals)
                "08-08-2024 20:00" "09-08-2024 10:30" 1000082 emily_johnson in
  csv with_booking = Some booked_rows
  /\ result call with_booking
     = rescheduled emily_johnson "08-08-2024 20:00" "09-08-2024 10:30".
Proof.
  intros call. split; [reflexivity|].
  refine (proj1 (reschedule_appointment_succeeds (E := spec_externals)
                   with_booking booked_rows
                   "08-08-2024 20:00" "09-08-2024 10:30" 1000082 emily_johnson
                   eq_refl eq_refl eq_refl eq_refl spec_date_times_have_shape
                   _ _)).
  - exists (slot "09-08-2024 10:30" "emily johnson" true None).
    split; [right; left; reflexivity|]. split; reflexivity.
  - exists (slot "08-08-2024 20:00" "emily johnson" false (Some 1000082%Z)).
    split; [left; reflexivity|]. split; reflexivity.
Defined.

Lemma cancel_appointment_twice_witness :
  let call := cancel_appointment (E := spec_externals)
                "08-08-2024 20:00" 1000082 emily_johnson in
  csv with_booking = Some booked_rows
  /\ result call (after call with_booking)
     = no_appointment_found emily_johnson "08-08-2024 20:00" 1000082.
Proof.
  intros call. split; [reflexivity|].
  exact (proj1 (cancel_appointment_twice (E := spec_externals)
                  with_booking booked_rows
                  "08-08-2024 20:00" 1000082 emily_johnson
                  eq_refl eq_refl eq_refl)).
Defined.

Lemma cancel_by_another_patient_witness :
  let booking := set_appointment (E := spec_externals)
                   "08-08-2024 20:00" 1000082 emily_johnson in
  let cancelling := cancel_appointment (E := spec_externals)
                      "08-08-2024 20:00" 1000083 emily_johnson in
  csv seeded = Some seeded_rows
  /\ 1000082%Z <> 1000083%Z
  /\ result cancelling (after booking seeded)
     = no_appointment_found emily_johnson "08-08-2024 20:00" 1000083.
Proof.
  intros booking cancelling.
  assert (Hne : 1000082%Z <> 1000083%Z) by discriminate.
  split; [reflexivity|]. split; [exact Hne|].
  refine (proj1 (cancel_by_another_patient (E := spec_externals)
                   seeded seeded_rows "08-08-2024 20:00" 1000082 1000083
                   emily_johnson eq_refl eq_refl eq_refl eq_refl Hne _)).
  intros r [<- | [<- | [<- | []]]] Hk; discriminate.
Defined.

End BookingSpec.


(* ===================================================================== *)
(** ** The availability queries                                           *)
(* ===================================================================== *)

Module QuerySpec.
Import Toolkit Formats ToolkitSamples ToolkitSpec.



Lemma split_without_separator (sep : ascii) (s : string) :
  has_char sep s = false -> split sep s = [s].
Proof.
  unfold has_char. induction s as [|c s IH]; cbn; [reflexivity|].
  intros H. apply orb_false_iff in H. destruct H as [Hc Hs].
  rewrite Ascii.eqb_sym, Hc, (IH Hs). reflexivity.
Qed.

Lemma split_at_first_separator (sep : ascii) (a b : string) :
  has_char sep a = false ->
  split sep (a ++ String sep b) = a :: split sep b.
Proof.
  unfold has_char. induction a as [|c a IH]; cbn.
  - intros _. rewrite Ascii.eqb_refl. reflexivity.
  - intros H. apply orb_false_iff in H. destruct H as [Hc Ha].
    rewrite Ascii.eqb_sym, Hc, (IH Ha). reflexivity.
Qed.

Lemma checked_items_all_present (i : nat) (items : list (option string)) :
  (forall x, In x items -> x <> None) ->
  exists l, checked_items i items = inr l /\ map Some l = items.
Proof.
  revert i. induction items as [|x items IH]; intros i Hall.
  - exists []. split; reflexivity.
  - destruct x as [s|]; [|exfalso; apply (Hall None); [left|]; reflexivity].
    destruct (IH (S i)) as (l & Hl & Hmap).
    { intros y Hy. apply Hall. right. exact Hy. }
    exists (s :: l). cbn. rewrite Hl, Hmap. split; reflexivity.
Qed.

Lemma doctor_str_is_valid (doctor : Doctor) :
  strip (lower (doctor_str doctor)) = doctor_str doctor
  /\ existsb (String.eqb (doctor_str doctor)) valid_doctors = true.
Proof. destruct doctor; split; reflexivity. Qed.

(** X7.  What [set_appointment] would book, [check_availability_by_doctor]
    lists: if the file has an available row of the doctor whose date-time
    is [date], a blank and [time], then the query for that doctor and date
    answers with the "Availability for Dr. ..." text and [time] is among
    the comma-separated slots it lists (provided the date passes
    [DateModel], neither part contains a blank, and no available row of
    that doctor and date lacks its time part). *)
Theorem bookable_slots_are_listed {E : Externals} (w : World) (df : DataFrame)
    (date time : string) (doctor : Doctor) :
  csv w = Some df ->
  DateModel date = true ->
  has_char " " date = false -> has_char " " time = false ->
  (exists r, In r df /\ free_slot_of doctor (date ++ " " ++ time) r = true) ->
  (forall r, In r df -> date_only r = date ->
             doctor_name r = doctor_str doctor -> is_available r = true ->
             time_only r <> None) ->
  exists times,
    In time times
    /\ result (check_availability_by_doctor date (doctor_str doctor)) w =
       "Availability for Dr. " ++ title (doctor_str doctor) ++ " on " ++ date
       ++ ":" ++ LF ++ "Available slots: " ++ join ", " times.
Proof.
  intros Hw Hd Hdate Htime (r0 & Hin0 & Hfree0) Hparts.
  unfold result, check_availability_by_doctor, bind, enter, read_csv.
  destruct (doctor_str_is_valid doctor) as [-> ->].
  rewrite Hd. cbn [negb csv noted]. rewrite Hw. cbv zeta.
  set (rows := filter (fun r : Slot =>
                         String.eqb (date_only r) date
                         && String.eqb (doctor_name r) (doctor_str doctor)
                         && is_available r) df).
  unfold free_slot_of, slot_of in Hfree0.
  apply andb_true_iff in Hfree0. destruct Hfree0 as [Hkey0 Hav0].
  apply andb_true_iff in Hkey0. destruct Hkey0 as [Hslot0 Hdoc0].
  apply String.eqb_eq in Hslot0.
  assert (Hsplit : split " " (date_slot r0) = [date; time]).
  { rewrite Hslot0. change (date ++ " " ++ time) with (date ++ String " " time).
    rewrite (split_at_first_separator " " date time Hdate).
    rewrite (split_without_separator " " time Htime). reflexivity. }
  assert (Hrow0 : In r0 rows).
  { unfold rows. apply filter_In. split; [exact Hin0|].
    unfold date_only. rewrite Hsplit, String.eqb_refl, Hdoc0, Hav0.
    reflexivity. }
  assert (Hne : is_empty rows = false).
  { apply is_empty_filter_false. exists r0. split; [exact Hin0|].
    unfold rows in Hrow0. apply filter_In in Hrow0. exact (proj2 Hrow0). }
  rewrite Hne.
  destruct (checked_items_all_present 0 (map time_only rows)) as (times & Hc & Hm).
  { intros x Hx. apply in_map_iff in Hx. destruct Hx as (r & <- & Hr).
    unfold rows in Hr. apply filter_In in Hr. destruct Hr as [Hin Hr].
    apply andb_true_iff in Hr. destruct Hr as [Hon Hav].
    apply andb_true_iff in Hon. destruct Hon as [H1 H2].
    apply String.eqb_eq in H1. apply String.eqb_eq in H2.
    exact (Hparts r Hin H1 H2 Hav). }
  rewrite Hc. cbn [fst ret]. exists times. split; [|reflexivity].
  assert (Hsome : In (Some time) (map time_only rows)).
  { apply in_map_iff. exists r0. split; [|exact Hrow0].
    unfold time_only. rewrite Hsplit. reflexivity. }
  rewrite <- Hm in Hsome. apply in_map_iff in Hsome.
  destruct Hsome as (t & [= ->] & Ht). exact Ht.
Qed.

Lemma bookable_slots_are_listed_witness :
  csv seeded = Some seeded_rows
  /\ DateModel (Externals := spec_externals) "08-08-2024" = true
  /\ exists times,
       In "20:00" times
       /\ result (check_availability_by_doctor (E := spec_externals)
                    "08-08-2024" (doctor_str emily_johnson)) seeded =
          "Availability for Dr. " ++ title (doctor_str emily_johnson)
          ++ " on " ++ "08-08-2024" ++ ":" ++ LF ++ "Available slots: "
          ++ join ", " times.
Proof.
  split; [reflexivity|]. split; [reflexivity|].
  refine (bookable_slots_are_listed (E := spec_externals) seeded seeded_rows
            "08-08-2024" "20:00" emily_johnson
            eq_refl eq_refl eq_refl eq_refl _ _).
  - exists (slot "08-08-2024 20:00" "emily johnson" true None).
    split; [left; reflexivity | reflexivity].
  - intros r [<- | [<- | [<- | []]]] _ _ _; discriminate.
Defined.

End QuerySpec.


(* ===================================================================== *)
(** ** Properties of the handler nodes and of the graph                   *)
(* ===================================================================== *)

Module NodesSpec.
#[local] Set Warnings "-notation-overridden".
Import Agent Nodes Formats AgentSamples AgentSpec.
Import Toolkit.

Lemma supervisor_returns {E : Externals} (llm : list ChatMessage -> Response)
    (st : AgentState) :
  messages st <> [] ->
  exists c, run llm (supervisor_node st) = Returned c
            /\ (goto c = END -> update_next c = FINISH).
Proof.
  intros Hne. unfold supervisor_node.
  destruct (6 <=? _)%nat; [eexists; split; [reflexivity | reflexivity]|].
  destruct (getitem_last_cases (messages st)) as [[Hm _]|(before & x & _ & Hl)];
    [contradiction|].
  rewrite Hl. cbn [Agent.bind try_invoke run].
  destruct (fallback_returns st (calls "information_node" st)
              (calls "booking_node" st) Hne) as (r & why & Hf).
  assert (Hcmd : forall d, goto (command d) = END -> update_next (command d) = FINISH).
  { intros [[] ?]; cbn; intros H; first [reflexivity | discriminate]. }
  match goal with
  | |- context [llm ?p] => destruct (llm p)
  end; cbn [Agent.bind run]; try rewrite Hf; cbn [Agent.bind run];
    eexists; (split; [reflexivity | apply Hcmd]).
Qed.

Lemma supervisor_at_ceiling {E : Externals} (llm : list ChatMessage -> Response)
    (st : AgentState) :
  (6 <= turns st)%nat ->
  exists c, run llm (supervisor_node st) = Returned c
            /\ goto c = END /\ update_next c = FINISH.
Proof.
  intros Hge. apply Nat.leb_le in Hge. unfold turns in Hge.
  unfold supervisor_node. rewrite Hge.
  eexists. repeat split.
Qed.

Lemma calls_add_messages (tag : string) (st : AgentState) (m : Message) :
  calls tag (add_messages st m)
  = (calls tag st + (if has_name tag m then 1 else 0))%nat.
Proof.
  unfold calls, add_messages. cbn [messages].
  rewrite filter_app, length_app. cbn [filter].
  destruct (has_name tag m); reflexivity.
Qed.

Section Graph.
Context {E : Externals} {L : Models}.

Lemma information_node_message (st : AgentState) (w : World) :
  name (fst (information_node st w)) = Some "information_node".
Proof.
  unfold information_node, Toolkit.bind.
  destruct (information_agent st w) as [[final|err] w1]; [reflexivity|].
  destruct (contains "tool call validation failed" err && contains "doctor_name" err);
    [|reflexivity].
  cbv zeta. destruct (_ || _); [|reflexivity].
  destruct (check_availability_by_specialization _ _ w1). reflexivity.
Qed.

Lemma booking_node_message (st : AgentState) (w : World) (m : Message) :
  fst (booking_node st w) = inr m -> name m = Some "booking_node".
Proof.
  unfold booking_node, Toolkit.bind. cbv zeta.
  destruct (template_error _); [discriminate|].
  destruct (booking_agent _ _ _ w) as [outcome w1].
  match goal with
  | |- context [let (a, w') := ?m w1 in _] => destruct (m w1)
  end.
  cbn [fst Toolkit.ret]. intros H. injection H as <-. reflexivity.
Qed.

(** The only exception that leaves [booking_node] is the one of the
    template, raised before anything else is done. *)
Lemma booking_node_raises (st : AgentState) (w : World) (e : PyExc) :
  fst (booking_node st w) = inl e ->
  template_error (booking_prompt st) = Some e /\ snd (booking_node st w) = w.
Proof.
  unfold booking_node, booking_prompt, Toolkit.bind. cbv zeta.
  destruct (template_error _) as [e'|].
  - cbn [fst snd Toolkit.ret]. intros H. injection H as <-.
    split; reflexivity.
  - destruct (booking_agent _ _ _ w) as [outcome w1].
    match goal with
    | |- context [let (a, w') := ?m w1 in _] => destruct (m w1)
    end.
    discriminate.
Qed.

Lemma turns_after_handler (st : AgentState) (m : Message) :
  name m = Some "information_node" \/ name m = Some "booking_node" ->
  turns (add_messages st m) = S (turns st).
Proof.
  intros Hn. unfold turns. rewrite !calls_add_messages. unfold has_name.
  destruct Hn as [-> | ->]; cbn; lia.
Qed.

(** One step of the graph at each node. *)
Lemma invoke_supervisor (b : nat) (st : AgentState) (w : World) :
  invoke (S b) supervisor st w =
  match run llm (supervisor_node st) with
  | Raised e => (Crashed e, w)
  | Returned c =>
      invoke b
        (match goto c with
         | goto_information_node => at_information_node
         | goto_booking_node => at_booking_node
         | END => at_end
         end)
        (apply_update st c) w
  end.
Proof.
  cbn [invoke]. destruct (run llm (supervisor_node st)); reflexivity.
Qed.

Lemma invoke_information_node (b : nat) (st : AgentState) (w : World) :
  invoke (S b) at_information_node st w =
  invoke b supervisor (add_messages st (fst (information_node st w)))
         (snd (information_node st w)).
Proof.
  cbn [invoke]. unfold Toolkit.bind.
  destruct (information_node st w). reflexivity.
Qed.

Lemma invoke_booking_node (b : nat) (st : AgentState) (w : World) :
  invoke (S b) at_booking_node st w =
  match fst (booking_node st w) with
  | inl e => (Crashed e, snd (booking_node st w))
  | inr m => invoke b supervisor (add_messages st m) (snd (booking_node st w))
  end.
Proof.
  cbn [invoke]. unfold Toolkit.bind.
  destruct (booking_node st w) as [[e|m] w1]; reflexivity.
Qed.

Lemma invoke_at_end (b : nat) (st : AgentState) (w : World) :
  invoke b at_end st w = (Finished st, w).
Proof. destruct b; reflexivity. Qed.

(** An invocation started at the supervisor, for any budget that covers
    the turns left below the ceiling. *)
Lemma invoke_ends (k : nat) :
  forall (budget : nat) (st : AgentState) (w : World),
    messages st <> [] ->
    (6 - turns st <= k)%nat ->
    (2 * k + 1 <= budget)%nat ->
    exists w' added,
      Forall handler_named added
      /\ ((exists st',
             invoke budget supervisor st w = (Finished st', w')
             /\ state_next st' = "FINISH"
             /\ messages st' = (messages st ++ added)%list
             /\ (List.length added <= k)%nat)
          \/ (exists e reached,
                invoke budget supervisor st w = (Crashed e, w')
                /\ messages reached = (messages st ++ added)%list
                /\ id_number reached = id_number st
                /\ (List.length added < k)%nat
                /\ template_error (booking_prompt reached) = Some e)).
Proof.
  induction k as [|k IH]; intros budget st w Hne Hk Hb.
  - destruct budget as [|b]; [lia|].
    destruct (supervisor_at_ceiling llm st ltac:(lia)) as (c & Hc & Hg & Hu).
    rewrite invoke_supervisor, Hc, Hg, invoke_at_end.
    exists w, []. split; [constructor|]. left.
    exists (apply_update st c).
    split; [reflexivity|].
    split; [cbn; rewrite Hu; reflexivity|].
    split; [cbn; rewrite app_nil_r; reflexivity | cbn; lia].
  - destruct budget as [|b]; [lia|].
    destruct (supervisor_returns llm st Hne) as (c & Hc & Hend).
    rewrite invoke_supervisor, Hc.
    set (st0 := apply_update st c).
    assert (Hstep : forall m w1,
              handler_named m ->
              exists w' added,
                Forall handler_named added
                /\ ((exists st',
                       invoke (Nat.pred b) supervisor (add_messages st0 m) w1
                       = (Finished st', w')
                       /\ state_next st' = "FINISH"
                       /\ messages st' = (messages st ++ added)%list
                       /\ (List.length added <= S k)%nat)
                    \/ (exists e reached,
                          invoke (Nat.pred b) supervisor (add_messages st0 m) w1
                          = (Crashed e, w')
                          /\ messages reached = (messages st ++ added)%list
                          /\ id_number reached = id_number st
                          /\ (List.length added < S k)%nat
                          /\ template_error (booking_prompt reached) = Some e))).
    { intros m w1 Hname.
      destruct (IH (Nat.pred b) (add_messages st0 m) w1)
        as (w' & added & Hall & Hcase).
      { cbn. destruct (messages st); discriminate. }
      { rewrite (turns_after_handler _ m Hname).
        change (turns st0) with (turns st). lia. }
      { lia. }
      exists w', (m :: added). split; [constructor; assumption|].
      destruct Hcase as [(st' & Hrun & Hnext & Hmsgs & Hlen)
                        |(e & reached & Hrun & Hmsgs & Hid & Hlen & Hraise)].
      - left. exists st'. split; [exact Hrun|]. split; [exact Hnext|].
        split; [rewrite Hmsgs; cbn; rewrite <- app_assoc; reflexivity|].
        cbn; lia.
      - right. exists e, reached. split; [exact Hrun|].
        split; [rewrite Hmsgs; cbn; rewrite <- app_assoc; reflexivity|].
        split; [exact Hid|]. split; [cbn; lia | exact Hraise]. }
    destruct (goto c) eqn:Hg.
    + destruct b as [|b]; [lia|]. rewrite invoke_information_node.
      apply Hstep. left. apply information_node_message.
    + destruct b as [|b]; [lia|]. rewrite invoke_booking_node.
      destruct (fst (booking_node st0 w)) as [e|m] eqn:Hout.
      * destruct (booking_node_raises st0 w e Hout) as [Hraise Hw].
        exists (snd (booking_node st0 w)), []. split; [constructor|].
        right. exists e, st0. split; [reflexivity|].
        split; [cbn; rewrite app_nil_r; reflexivity|].
        split; [reflexivity|]. split; [cbn; lia | exact Hraise].
      * apply Hstep. right. exact (booking_node_message st0 w m Hout).
    + rewrite invoke_at_end. exists w, []. split; [constructor|]. left.
      exists st0.
      split; [reflexivity|].
      split; [cbn; rewrite (Hend eq_refl); reflexivity|].
      split; [cbn; rewrite app_nil_r; reflexivity | cbn; lia].
Qed.

(** X8.  Whatever the decision model, the two agents and the templates do,
    an invocation of the graph on a conversation with at least one message
    never uses up the default recursion limit, and the messages it adds are
    handler messages (named [information_node] or [booking_node]) appended
    to the given ones.  It ends in one of two ways: at [END] with [next]
    set to FINISH, having added at most as many messages as handler turns
    were missing to six; or with the exception that the template of the
    booking node raises on the system text built from the conversation
    reached (fewer messages added than turns were missing).  No other
    exception leaves the graph; when no template raises, it ends at
    [END]. *)
Theorem graph_ends_within_six_turns (st : AgentState) (w : World) :
  messages st <> [] ->
  exists w' added,
    Forall handler_named added
    /\ ((exists st',
           app_invoke st w = (Finished st', w')
           /\ state_next st' = "FINISH"
           /\ messages st' = (messages st ++ added)%list
           /\ (List.length added <= 6 - turns st)%nat)
        \/ (exists e reached,
              app_invoke st w = (Crashed e, w')
              /\ messages reached = (messages st ++ added)%list
              /\ id_number reached = id_number st
              /\ (List.length added < 6 - turns st)%nat
              /\ template_error (booking_prompt reached) = Some e)).
Proof.
  intros Hne. unfold app_invoke, recursion_limit.
  apply (invoke_ends (6 - turns st)); [exact Hne | lia | lia].
Qed.

(** X9.  [information_node] adds nothing of its own to what its agent did
    to the slot-store file; beyond the agent's tool calls it enters at most
    [check_availability_by_specialization], once, and only after the agent
    failed with an error that mentions both "tool call validation failed"
    and "doctor_name". *)
Theorem information_node_own_effect (st : AgentState) (w : World) :
  let agent := information_agent st in
  csv (after (information_node st) w) = csv (after agent w)
  /\ (entered (after (information_node st) w) = entered (after agent w)
      \/ (entered (after (information_node st) w)
          = (entered (after agent w)
             ++ ["check_availability_by_specialization"])%list
          /\ exists err,
               result agent w = AgentFailed err
               /\ contains "tool call validation failed" err = true
               /\ contains "doctor_name" err = true)).
Proof.
  intros agent. unfold agent, after, result, information_node, Toolkit.bind.
  destruct (information_agent st w) as [[final|err] w1]; cbn [fst snd].
  - split; [reflexivity | left; reflexivity].
  - destruct (contains "tool call validation failed" err) eqn:H1;
      [|split; [reflexivity | left; reflexivity]].
    destruct (contains "doctor_name" err) eqn:H2;
      [|split; [reflexivity | left; reflexivity]].
    cbn [andb]. cbv zeta.
    destruct (_ || _); [|split; [reflexivity | left; reflexivity]].
    pose proof (StoreSpec.by_specialization_leaves_store
                  "08-08-2024" general_dentist w1) as Hcsv.
    unfold after in Hcsv.
    assert (Hent : entered (snd (check_availability_by_specialization
                                   "08-08-2024" general_dentist w1))
                   = (entered w1 ++ ["check_availability_by_specialization"])%list).
    { unfold check_availability_by_specialization, Toolkit.bind, enter, read_csv.
      cbn [csv noted].
      repeat match goal with
             | |- context [if ?b then _ else _] => destruct b
             | |- context [match ?x with _ => _ end] => destruct x
             end; reflexivity. }
    destruct (check_availability_by_specialization _ _ w1) as [text w2].
    cbn [fst snd] in *. split; [exact Hcsv|].
    right. split; [exact Hent|]. exists err. repeat split; assumption.
Qed.

(** X10.  When the template of its prompt raises, [booking_node] raises
    that exception and leaves the world as it was.  Otherwise it returns a
    message, and it changes the world beyond its agent's dialogue only
    through one direct [set_appointment]: it does so only when the dialogue
    failed (an exception, an empty answer or an answer mentioning "error"),
    a doctor, a date and a time were all extracted, and the extracted doctor
    is one of the ten names; the call is then made with exactly the
    extracted date, blank, time, the patient id of the state and that
    doctor, and its answer is the content of the message.  In every other
    case the world is as the dialogue left it. *)
Theorem booking_node_own_effect (st : AgentState) (w : World) :
  let info := availability_info st in
  let dialogue := booking_dialogue st in
  (exists e,
     template_error (booking_prompt st) = Some e
     /\ booking_node st w = (inl e, w))
  \/ (exists m,
        template_error (booking_prompt st) = None
        /\ result (booking_node st) w = inr m
        /\ (after (booking_node st) w = after dialogue w
            \/ exists d,
                 doctor_named (extracted_doctor info) = Some d
                 /\ truthy (extracted_date info) = true
                 /\ truthy (extracted_time info) = true
                 /\ dialogue_failed (result dialogue w) = true
                 /\ let direct :=
                      set_appointment
                        (extracted_date info ++ " " ++ extracted_time info)
                        (id_number st) d in
                    after (booking_node st) w = after direct (after dialogue w)
                    /\ content m = result direct (after dialogue w))).
Proof.
  intros info dialogue.
  unfold dialogue, after, result, booking_node, booking_prompt,
    booking_dialogue, Toolkit.bind.
  cbv zeta. fold info.
  destruct (template_error _) as [e|];
    [left; exists e; split; reflexivity | right].
  destruct (booking_agent _ _ _ w) as [outcome w1]. cbn [fst snd].
  assert (Hdirect : forall prefix,
    truthy (extracted_doctor info) && truthy (extracted_date info)
      && truthy (extracted_time info) = true ->
    dialogue_failed outcome = true ->
    let node :=
      direct_booking prefix (id_number st) (extracted_doctor info)
        (extracted_date info) (extracted_time info) w1 in
    snd node = w1
    \/ exists d,
         doctor_named (extracted_doctor info) = Some d
         /\ truthy (extracted_date info) = true
         /\ truthy (extracted_time info) = true
         /\ dialogue_failed outcome = true
         /\ snd node = snd (set_appointment
                             (extracted_date info ++ " " ++ extracted_time info)
                             (id_number st) d w1)
         /\ fst node = fst (set_appointment
                             (extracted_date info ++ " " ++ extracted_time info)
                             (id_number st) d w1)).
  { intros prefix Hall Hfail node. unfold node, direct_booking,
      invoke_set_appointment, Toolkit.bind. cbv zeta.
    apply andb_true_iff in Hall. destruct Hall as [Hall Ht].
    apply andb_true_iff in Hall. destruct Hall as [_ Hd].
    destruct (doctor_named (extracted_doctor info)) as [d|]; [|left; reflexivity].
    right. exists d.
    destruct (set_appointment _ (id_number st) d w1) as [text w2].
    repeat split; assumption. }
  destruct outcome as [final|err].
  - destruct (negb (truthy final) || contains "error" (lower final)) eqn:Hbad.
    2:{ eexists. split; [reflexivity|]. split; [reflexivity|]. left. reflexivity. }
    destruct (truthy (extracted_doctor info) && truthy (extracted_date info)
              && truthy (extracted_time info)) eqn:Hall.
    2:{ eexists. split; [reflexivity|]. split; [reflexivity|]. left. reflexivity. }
    destruct (Hdirect "Failed to book appointment: " eq_refl Hbad)
      as [Hsame | (d & Hd & H1 & H2 & H3 & Hw & Ht)];
      destruct (direct_booking _ _ _ _ _ w1) as [text w2]; cbn [fst snd] in *;
      (eexists; split; [reflexivity|]; split; [reflexivity|]).
    + left. exact Hsame.
    + right. exists d. repeat split; assumption.
  - destruct (truthy (extracted_doctor info) && truthy (extracted_date info)
              && truthy (extracted_time info)) eqn:Hall.
    2:{ eexists. split; [reflexivity|]. split; [reflexivity|]. left. reflexivity. }
    destruct (Hdirect "Booking failed: " eq_refl eq_refl)
      as [Hsame | (d & Hd & H1 & H2 & H3 & Hw & Ht)];
      destruct (direct_booking _ _ _ _ _ w1) as [text w2]; cbn [fst snd] in *;
      (eexists; split; [reflexivity|]; split; [reflexivity|]).
    + left. exact Hsame.
    + right. exists d. repeat split; assumption.
Qed.

End Graph.

(** The default request with models that all fail. *)
Lemma graph_ends_within_six_turns_witness :
  let st := NodeSamples.first_request in
  let run := app_invoke (E := spec_externals) (L := NodeSamples.failing)
               st ToolkitSamples.seeded in
  messages st <> []
  /\ exists w' added,
       Forall handler_named added
       /\ ((exists st',
              run = (Finished st', w')
              /\ state_next st' = "FINISH"
              /\ messages st' = (messages st ++ added)%list
              /\ (List.length added <= 6 - turns st)%nat)
           \/ (exists e reached,
                 run = (Crashed e, w')
                 /\ messages reached = (messages st ++ added)%list
                 /\ id_number reached = id_number st
                 /\ (List.length added < 6 - turns st)%nat
                 /\ template_error (Models := NodeSamples.failing)
                      (booking_prompt reached) = Some e)).
Proof.
  intros st run.
  assert (Hne : messages st <> []) by discriminate.
  split; [exact Hne|].
  exact (graph_ends_within_six_turns (E := spec_externals)
           (L := NodeSamples.failing) st ToolkitSamples.seeded Hne).
Defined.

End NodesSpec.


(* ===================================================================== *)
(** ** Routing when the decision model is of no help                      *)
(* ===================================================================== *)

Module RoutingSpec.
#[local] Set Warnings "-notation-overridden".
Import Agent Nodes Formats AgentSamples AgentSpec NodesSpec.
Import Toolkit.

Lemma reached_and_failed {E : Externals} (llm : list ChatMessage -> Response)
    (st : AgentState) :
  (forall prompt, failed (llm prompt) = true) ->
  (turns st < 6)%nat -> messages st <> [] ->
  primary_decision_fails llm st.
Proof.
  intros Hfail Hlt Hne.
  destruct (supervisor_reaches_model st Hlt Hne) as (prompt & Hp).
  exists prompt. split; [exact Hp | apply Hfail].
Qed.

Lemma failed_decision_command {E : Externals}
    (llm : list ChatMessage -> Response) (st : AgentState) (d : Route * string) :
  primary_decision_fails llm st ->
  fallback st (calls "information_node" st) (calls "booking_node" st) = Ret d ->
  run llm (supervisor_node st) = Returned (command d).
Proof.
  intros Hfail Hd. rewrite (failed_decision_runs_fallback llm st Hfail), Hd.
  reflexivity.
Qed.

Lemma fallback_after_booking_turn (st : AgentState) (ic bc : nat)
    (before : list Message) (last : Message) :
  messages st = (before ++ [last])%list ->
  has_name "booking_node" last = true ->
  fallback st ic bc = Ret (FINISH, "Fallback: booking complete").
Proof.
  intros Hm Hb. unfold fallback. rewrite Hm at 1. rewrite getitem_last_snoc.
  cbn [Agent.bind].
  assert (Hi : has_name "information_node" last = false).
  { unfold has_name in *. destruct (name last) as [n|]; [|reflexivity].
    apply String.eqb_eq in Hb. subst n. reflexivity. }
  rewrite Hi, Hb. reflexivity.
Qed.

Lemma fallback_after_information_turn (st : AgentState) (ic bc : nat)
    (before : list Message) (last : Message) :
  messages st = (before ++ [last])%list ->
  has_name "information_node" last = true ->
  exists why, fallback st ic bc = Ret (Agent.booking_node, why)
              \/ fallback st ic bc = Ret (FINISH, why).
Proof.
  intros Hm Hi.
  assert (Hg : getitem_last (messages st) = Ret last)
    by (rewrite Hm; apply getitem_last_snoc).
  unfold fallback. rewrite Hg. cbn [Agent.bind]. rewrite Hi.
  repeat match goal with
         | |- context [if ?b then _ else _] => destruct b
         end; eexists; first [left; reflexivity | right; reflexivity].
Qed.

Section Claims.
Context {E : Externals}.

(** X11.  When the last message comes from the booking handler and the
    primary decision fails, the supervisor ends the conversation: its
    command goes to [END], records FINISH as [next] and has the rationale
    "Fallback: booking complete", whatever the booking message says. *)
Theorem fallback_after_booking
    (llm : list ChatMessage -> Response) (st : AgentState)
    (before : list Message) (last : Message) :
  primary_decision_fails llm st ->
  messages st = (before ++ [last])%list ->
  has_name "booking_node" last = true ->
  run llm (supervisor_node st)
  = Returned {| goto := END; update_next := FINISH;
                update_current_reasoning := "Fallback: booking complete" |}.
Proof.
  intros Hfail Hm Hb.
  exact (failed_decision_command llm st (FINISH, "Fallback: booking complete")
           Hfail (fallback_after_booking_turn st _ _ before last Hm Hb)).
Qed.

(** X12.  Once a handler has run, a failed primary decision never sends
    the conversation to the information handler: the supervisor returns a
    command that goes to the booking handler or to the end. *)
Theorem fallback_never_returns_to_information
    (llm : list ChatMessage -> Response) (st : AgentState) :
  primary_decision_fails llm st ->
  (0 < turns st)%nat ->
  exists c, run llm (supervisor_node st) = Returned c
            /\ goto c <> goto_information_node.
Proof.
  intros Hfail Hpos.
  rewrite (failed_decision_runs_fallback llm st Hfail).
  destruct Hfail as (prompt & Hasks & _).
  destruct (asks_supervisor_node st prompt Hasks) as (_ & before & last & Hm & _).
  assert (Hg : getitem_last (messages st) = Ret last)
    by (rewrite Hm; apply getitem_last_snoc).
  unfold fallback. rewrite Hg. cbn [Agent.bind].
  assert (Hzero : ((calls "information_node" st =? 0)
                   && (calls "booking_node" st =? 0))%nat = false).
  { unfold turns in Hpos.
    destruct (calls "information_node" st); [|reflexivity].
    destruct (calls "booking_node" st); [lia | reflexivity]. }
  rewrite Hzero.
  repeat match goal with
         | |- context [if ?b then _ else _] => destruct b
         end; cbn [Agent.bind run]; eexists; (split; [reflexivity | discriminate]).
Qed.

End Claims.

Section Graph.
Context {E : Externals} {L : Models}.

Lemma turns_one (st : AgentState) (m : Message) :
  turns st = 0%nat ->
  name m = Some "information_node" \/ name m = Some "booking_node" ->
  (turns (add_messages st m) < 6)%nat /\ (0 < turns (add_messages st m))%nat.
Proof.
  intros Hz Hn. rewrite (turns_after_handler st m Hn), Hz. lia.
Qed.

(** The supervisor step of a graph whose decision model always fails,
    below the ceiling. *)
Lemma failing_supervisor_step (st : AgentState) (d : Route * string) :
  (forall prompt, failed (llm prompt) = true) ->
  (turns st < 6)%nat -> messages st <> [] ->
  fallback st (calls "information_node" st) (calls "booking_node" st) = Ret d ->
  run llm (supervisor_node st) = Returned (command d).
Proof.
  intros Hfail Hlt Hne Hd.
  exact (failed_decision_command llm st d (reached_and_failed llm st Hfail Hlt Hne) Hd).
Qed.

(** X13.  If every call of the decision model fails, a fresh conversation
    (at least one message, no handler turn yet) gets at most one
    information turn followed by at most one booking turn.  Either the
    invocation ends at [END] having added nothing, one handler message, or
    an [information_node] message followed by a [booking_node] message; or
    the booking turn, reached at once or after one [information_node]
    message, raises the exception of its template on the system text built
    from the conversation reached, and that exception ends the
    invocation. *)
Theorem failing_model_gives_at_most_two_turns (st : AgentState) (w : World) :
  (forall prompt, failed (llm prompt) = true) ->
  messages st <> [] -> turns st = 0%nat ->
  exists w' added,
    (exists st',
       app_invoke st w = (Finished st', w')
       /\ messages st' = (messages st ++ added)%list
       /\ (added = []
           \/ (exists m, added = [m]
                         /\ (name m = Some "information_node"
                             \/ name m = Some "booking_node"))
           \/ (exists m1 m2, added = [m1; m2]
                             /\ name m1 = Some "information_node"
                             /\ name m2 = Some "booking_node")))
    \/ (exists e reached,
          app_invoke st w = (Crashed e, w')
          /\ messages reached = (messages st ++ added)%list
          /\ id_number reached = id_number st
          /\ (added = []
              \/ exists m, added = [m] /\ name m = Some "information_node")
          /\ template_error (booking_prompt reached) = Some e).
Proof.
  intros Hfail Hne Hz.
  assert (Hlast : forall s m,
            messages (add_messages s m) = (messages s ++ [m])%list)
    by reflexivity.
  assert (Hnonempty : forall s m, messages (add_messages s m) <> []).
  { intros s m. rewrite Hlast. destruct (messages s); discriminate. }
  (* a step that ends right after a booking turn *)
  assert (Hbooked : forall b s m w1,
            turns s = 0%nat \/ turns s = 1%nat ->
            name m = Some "booking_node" ->
            invoke (S b) supervisor (add_messages s m) w1
            = (Finished (apply_update (add_messages s m)
                           (command (FINISH, "Fallback: booking complete"))), w1)).
  { intros b s m w1 Hs Hn. rewrite invoke_supervisor.
    rewrite (failing_supervisor_step (add_messages s m)
               (FINISH, "Fallback: booking complete") Hfail).
    - apply invoke_at_end.
    - rewrite (turns_after_handler s m (or_intror Hn)). lia.
    - apply Hnonempty.
    - apply (fallback_after_booking_turn _ _ _ (messages s) m (Hlast s m)).
      unfold has_name. rewrite Hn. reflexivity. }
  unfold app_invoke, recursion_limit. rewrite invoke_supervisor.
  destruct (fallback_returns st (calls "information_node" st)
              (calls "booking_node" st) Hne) as (r & why & Hf).
  rewrite (failing_supervisor_step st (r, why) Hfail ltac:(lia) Hne Hf).
  destruct r; cbn [command goto].
  - (* information first *)
    rewrite invoke_information_node.
    set (st0 := apply_update st _).
    pose proof (information_node_message st0 w) as Hn1.
    destruct (information_node st0 w) as [m1 w1]. cbn [fst snd] in *.
    rewrite invoke_supervisor.
    destruct (fallback_after_information_turn (add_messages st0 m1)
                (calls "information_node" (add_messages st0 m1))
                (calls "booking_node" (add_messages st0 m1))
                (messages st0) m1 (Hlast st0 m1))
      as (why2 & [Hf2 | Hf2]).
    { unfold has_name. rewrite Hn1. reflexivity. }
    + rewrite (failing_supervisor_step (add_messages st0 m1) _ Hfail
                 (proj1 (turns_one st0 m1 Hz (or_introl Hn1)))
                 (Hnonempty st0 m1) Hf2).
      cbn [command goto]. rewrite invoke_booking_node.
      set (st1 := apply_update (add_messages st0 m1) _).
      pose proof (booking_node_message st1 w1) as Hn2.
      pose proof (booking_node_raises st1 w1) as Hr2.
      destruct (booking_node st1 w1) as [[e|m2] w2]; cbn [fst snd] in *.
      * exists w2, [m1]. right. exists e, st1.
        split; [reflexivity|]. split; [reflexivity|]. split; [reflexivity|].
        split; [right; exists m1; split; [reflexivity | exact Hn1]|].
        exact (proj1 (Hr2 e eq_refl)).
      * specialize (Hn2 m2 eq_refl).
        rewrite (Hbooked _ st1 m2 w2); [| right | exact Hn2].
        2:{ change (turns st1) with (turns (add_messages st0 m1)).
            rewrite (turns_after_handler st0 m1 (or_introl Hn1)).
            change (turns st0) with (turns st). lia. }
        exists w2, [m1; m2]. left. eexists. split; [reflexivity|].
        split; [unfold st1, st0; cbn [messages apply_update add_messages];
                rewrite <- app_assoc; reflexivity|].
        right. right. exists m1, m2. repeat split; assumption.
    + rewrite (failing_supervisor_step (add_messages st0 m1) _ Hfail
                 (proj1 (turns_one st0 m1 Hz (or_introl Hn1)))
                 (Hnonempty st0 m1) Hf2).
      cbn [command goto]. rewrite invoke_at_end.
      exists w1, [m1]. left. eexists. split; [reflexivity|].
      split; [reflexivity|].
      right. left. exists m1. split; [reflexivity | left; exact Hn1].
  - (* booking first *)
    rewrite invoke_booking_node.
    set (st0 := apply_update st _).
    pose proof (booking_node_message st0 w) as Hn1.
    pose proof (booking_node_raises st0 w) as Hr1.
    destruct (booking_node st0 w) as [[e|m1] w1]; cbn [fst snd] in *.
    + exists w1, []. right. exists e, st0.
      split; [reflexivity|].
      split; [cbn [messages apply_update]; rewrite app_nil_r; reflexivity|].
      split; [reflexivity|]. split; [left; reflexivity|].
      exact (proj1 (Hr1 e eq_refl)).
    + specialize (Hn1 m1 eq_refl).
      rewrite (Hbooked _ st0 m1 w1); [| left; exact Hz | exact Hn1].
      exists w1, [m1]. left. eexists. split; [reflexivity|].
      split; [reflexivity|].
      right. left. exists m1. split; [reflexivity | right; exact Hn1].
  - (* nothing to do *)
    rewrite invoke_at_end.
    exists w, []. left. eexists. split; [reflexivity|].
    split; [cbn [messages apply_update]; rewrite app_nil_r; reflexivity
           | left; reflexivity].
Qed.

End Graph.

(** C4.  The fallback after an information turn tests four substrings of
    the message, and the answer of [check_availability_by_specialization]
    for a date without any row of the specialization, "No general dentist
    appointments available on 08-08-2024. Please try another date.", has
    "available" and neither "no available" nor "not available".  On a store
    without rows the information node gives exactly this text for a request
    that only asks about availability; the supervisor, its decision model
    failing, then goes to the booking node with the rationale "Fallback:
    availability confirmed, routing to booking", where the specification
    has a message that indicates no availability end the conversation. *)
Theorem no_appointments_text_goes_to_booking :
  let asked := NodeSamples.availability_request in
  let told := NodeSamples.told_no_appointments in
  Nodes.information_node (E := spec_externals) (L := NodeSamples.failing)
    asked ToolkitSamples.no_rows
  = (node_says "information_node" NodeSamples.no_appointments_text,
     noted "check_availability_by_specialization" ToolkitSamples.no_rows)
  /\ told = add_messages asked
              (node_says "information_node" NodeSamples.no_appointments_text)
  /\ primary_decision_fails (E := spec_externals) timing_out told
  /\ run timing_out (supervisor_node (E := spec_externals) told)
     = Returned {| goto := goto_booking_node;
                   update_next := Agent.booking_node;
                   update_current_reasoning :=
                     "Fallback: availability confirmed, routing to booking" |}.
Proof.
  intros asked told.
  split; [vm_compute; reflexivity|].
  split; [reflexivity|].
  split; [apply timing_out_fails; [vm_compute; lia | discriminate]|].
  vm_compute. reflexivity.
Qed.

Lemma fallback_after_booking_witness :
  primary_decision_fails (E := spec_externals) timing_out
    NodeSamples.served_request
  /\ run timing_out (supervisor_node (E := spec_externals)
                       NodeSamples.served_request)
     = Returned {| goto := END; update_next := FINISH;
                   update_current_reasoning := "Fallback: booking complete" |}.
Proof.
  assert (H : primary_decision_fails (E := spec_externals) timing_out
                NodeSamples.served_request).
  { apply timing_out_fails; [vm_compute; lia | discriminate]. }
  split; [exact H|].
  exact (fallback_after_booking (E := spec_externals) timing_out
           NodeSamples.served_request
           [user_says "check and book";
            node_says "information_node" "Dr. Emily Johnson: 8:00 PM"]
           (node_says "booking_node" "Appointment successfully booked!")
           H eq_refl eq_refl).
Defined.

Lemma fallback_never_returns_to_information_witness :
  let st := after_information "please check again" in
  primary_decision_fails (E := spec_externals) timing_out st
  /\ (0 < turns st)%nat
  /\ exists c, run timing_out (supervisor_node (E := spec_externals) st)
               = Returned c
               /\ goto c <> goto_information_node.
Proof.
  intros st.
  assert (H : primary_decision_fails (E := spec_externals) timing_out st).
  { apply timing_out_fails; [vm_compute; lia | discriminate]. }
  assert (Hpos : (0 < turns st)%nat) by (vm_compute; lia).
  split; [exact H|]. split; [exact Hpos|].
  exact (fallback_never_returns_to_information (E := spec_externals)
           timing_out st H Hpos).
Defined.

Lemma failing_model_gives_at_most_two_turns_witness :
  let st := NodeSamples.first_request in
  let run := app_invoke (E := spec_externals)
               (L := NodeSamples.answering_with_brace)
               st ToolkitSamples.seeded in
  (forall prompt,
     failed (llm (Models := NodeSamples.answering_with_brace) prompt) = true)
  /\ messages st <> []
  /\ turns st = 0%nat
  /\ exists w' added,
       (exists st',
          run = (Finished st', w')
          /\ messages st' = (messages st ++ added)%list
          /\ (added = []
              \/ (exists m, added = [m]
                            /\ (name m = Some "information_node"
                                \/ name m = Some "booking_node"))
              \/ (exists m1 m2, added = [m1; m2]
                                /\ name m1 = Some "information_node"
                                /\ name m2 = Some "booking_node")))
       \/ (exists e reached,
             run = (Crashed e, w')
             /\ messages reached = (messages st ++ added)%list
             /\ id_number reached = id_number st
             /\ (added = []
                 \/ exists m, added = [m] /\ name m = Some "information_node")
             /\ template_error (Models := NodeSamples.answering_with_brace)
                  (booking_prompt reached) = Some e).
Proof.
  intros st run.
  assert (Hfail : forall prompt,
            failed (llm (Models := NodeSamples.answering_with_brace) prompt)
            = true)
    by (intros prompt; reflexivity).
  assert (Hne : messages st <> []) by discriminate.
  assert (Hz : turns st = 0%nat) by reflexivity.
  split; [exact Hfail|]. split; [exact Hne|]. split; [exact Hz|].
  exact (failing_model_gives_at_most_two_turns (E := spec_externals)
           (L := NodeSamples.answering_with_brace) st
           ToolkitSamples.seeded Hfail Hne Hz).
Defined.

(** An information answer with a brace left open: the booking turn raises
    and the invocation ends with that exception, the file untouched. *)
Example open_brace_ends_invocation :
  exists text,
    app_invoke (E := spec_externals) (L := NodeSamples.answering_with_brace)
      NodeSamples.first_request ToolkitSamples.seeded
    = (Crashed (ValueError text), ToolkitSamples.seeded).
Proof. eexists. vm_compute. reflexivity. Qed.

(** The same request when every model fails: the slot of 20:00 is booked
    and the invocation ends at [END]. *)
Example failing_models_end_finished :
  match app_invoke (E := spec_externals) (L := NodeSamples.failing)
          NodeSamples.first_request ToolkitSamples.seeded with
  | (Finished st', w') =>
      List.length (messages st') = 3%nat
      /\ csv w' = Some ToolkitSamples.booked_rows
  | _ => False
  end.
Proof. vm_compute. split; reflexivity. Qed.

End RoutingSpec.


(* ===================================================================== *)
(** ** A request served without any model                                 *)
(* ===================================================================== *)

Module PipelineSpec.
#[local] Set Warnings "-notation-overridden".
Import Agent Nodes Formats AgentSamples AgentSpec NodesSpec RoutingSpec Pipeline.
Import Toolkit ToolkitSpec.





















Section Retry.
Context {E : Externals}.


End Retry.







Section Served.
Context {E : Externals} {L : Models}.






End Served.



End PipelineSpec.
